(** * Resume analyzer backend: the analysis-and-matching pipeline

    A shallow embedding of
      - src/utils/fileParser.js      (parseResume),
      - src/utils/aiAnalyzer.js      (analyzeResume, buildAnalysisPrompt),
      - src/middleware/upload.js     (storage, fileFilter),
      - src/controllers/resumeController.js (uploadResume, getResumeById,
        deleteResume),
      - src/services/jobService.js   (extractSkills, buildSearchQuery,
        calculateMatchScore, findMatchedSkills, matchJobsWithResume),
    with the collaborators they call (file system, record store, generative
    backend, JSON.parse) kept as explicit state or as parameters. *)

From Stdlib Require Import ZArith List String Ascii Bool Lia Permutation Sorted.
From Stdlib Require Import Numbers.DecimalString Floats.SpecFloat.
From stdpp Require Import gmap strings.
Import ListNotations.
Open Scope string_scope.
Set Warnings "-register-all".

(* ===================================================================== *)
(** * Part I: definitions                                                *)
(* ===================================================================== *)

(** ** JavaScript strings

    A string is its sequence of code units; the model covers the code
    units below 256, one [ascii] each. *)
Module JsString.

Definition dquote : string := String (ascii_of_nat 34) EmptyString.
Definition nl : string := String (ascii_of_nat 10) EmptyString.
Definition backtick : ascii := ascii_of_nat 96.
Definition fence : string := String backtick (String backtick (String backtick EmptyString)).

(** [\s] of a regular expression, which is also what [trim] removes. *)
Definition isWhitespace (c : ascii) : bool :=
  let n := N_of_ascii c in
  ((9 <=? n) && (n <=? 13) || (n =? 32) || (n =? 160))%N.

Definition lowerChar (c : ascii) : ascii :=
  let n := N_of_ascii c in
  if ((65 <=? n) && (n <=? 90) ||
      (192 <=? n) && (n <=? 222) && negb (n =? 215))%N
  then ascii_of_N (n + 32) else c.

(** [s.toLowerCase()] *)
Fixpoint toLowerCase (s : string) : string :=
  match s with
  | EmptyString => EmptyString
  | String c s' => String (lowerChar c) (toLowerCase s')
  end.

(** [s.startsWith(p)] *)
Fixpoint startsWith (s p : string) {struct p} : bool :=
  match p, s with
  | EmptyString, _ => true
  | String c p', String d s' => Ascii.eqb c d && startsWith s' p'
  | String _ _, EmptyString => false
  end.

(** [s.includes(sub)] *)
Fixpoint includes (s sub : string) : bool :=
  startsWith s sub ||
  match s with
  | EmptyString => false
  | String _ s' => includes s' sub
  end.

Fixpoint trimStart (s : string) : string :=
  match s with
  | EmptyString => EmptyString
  | String c s' => if isWhitespace c then trimStart s' else s
  end.

Fixpoint trimEnd (s : string) : string :=
  match s with
  | EmptyString => EmptyString
  | String c s' =>
      let r := trimEnd s' in
      if isWhitespace c && String.eqb r EmptyString then EmptyString
      else String c r
  end.

(** [s.trim()] *)
Definition trim (s : string) : string := trimEnd (trimStart s).

(** [s.replace(/\s+/g, ' ')]: [inRun] tells that the previous code unit
    was whitespace, already replaced. *)
Fixpoint collapseFrom (inRun : bool) (s : string) : string :=
  match s with
  | EmptyString => EmptyString
  | String c s' =>
      if isWhitespace c
      then (if inRun then collapseFrom true s'
            else String " "%char (collapseFrom true s'))
      else String c (collapseFrom false s')
  end.

Definition collapseWhitespace (s : string) : string := collapseFrom false s.

(** [s.substring(0, n)] *)
Definition take (n : nat) (s : string) : string := String.substring 0 n s.

Definition isSlash (c : ascii) : bool := Ascii.eqb c "/"%char.
Definition isDot (c : ascii) : bool := Ascii.eqb c "."%char.

(** The part of [s] after its last code unit satisfying [p], or all of [s]. *)
Fixpoint afterLast (p : ascii -> bool) (s : string) : string :=
  match s with
  | EmptyString => EmptyString
  | String c s' =>
      if existsb p (list_ascii_of_string s') then afterLast p s'
      else if p c then s' else s
  end.

Fixpoint dropTrailing (p : ascii -> bool) (s : string) : string :=
  match s with
  | EmptyString => EmptyString
  | String c s' =>
      let r := dropTrailing p s' in
      if p c && String.eqb r EmptyString then EmptyString else String c r
  end.

Definition basename (path : string) : string :=
  afterLast isSlash (dropTrailing isSlash path).

(** Node's [path.extname] (POSIX flavour): from the last dot of the last
    path segment; empty when there is no dot, when the dot starts the
    segment, and for the segment [..]. *)
Definition extname (path : string) : string :=
  let b := basename path in
  match b with
  | EmptyString => EmptyString
  | String c rest =>
      if negb (existsb isDot (list_ascii_of_string rest)) then EmptyString
      else if String.eqb b ".." then EmptyString
      else String "."%char (afterLast isDot rest)
  end.

End JsString.
Import JsString.

(** ** Completions: a value, or a thrown [Error] with its message *)
Inductive Res (A : Type) : Type :=
| Ok (a : A)
| Throw (message : string).
Arguments Ok {A} a.
Arguments Throw {A} message.

Definition res_bind {A B} (r : Res A) (k : A -> Res B) : Res B :=
  match r with
  | Ok a => k a
  | Throw m => Throw m
  end.

Fixpoint res_mapM {A B} (f : A -> Res B) (l : list A) : Res (list B) :=
  match l with
  | [] => Ok []
  | x :: l' =>
      res_bind (f x) (fun y => res_bind (res_mapM f l') (fun ys => Ok (y :: ys)))
  end.

(** ** JavaScript values, as [JSON.parse] builds them

    Numbers are the integer-valued ones; an object is its list of own
    properties in enumeration order. [VUndefined] is what reading a
    missing property gives. *)
Inductive value : Type :=
| VUndefined
| VNull
| VBool (b : bool)
| VNum (n : Z)
| VStr (s : string)
| VArr (items : list value)
| VObj (fields : list (string * value)).

Module Js.

Definition truthy (v : value) : bool :=
  match v with
  | VUndefined | VNull => false
  | VBool b => b
  | VNum n => negb (n =? 0)%Z
  | VStr s => negb (String.eqb s "")
  | VArr _ | VObj _ => true
  end.

(** [v == null] *)
Definition nullish (v : value) : bool :=
  match v with
  | VUndefined | VNull => true
  | _ => false
  end.

(** [x || d] *)
Definition or_else (x d : value) : value := if truthy x then x else d.

Fixpoint lookup_field (k : string) (fields : list (string * value)) : value :=
  match fields with
  | [] => VUndefined
  | (k', v) :: rest => if String.eqb k k' then v else lookup_field k rest
  end.

(** [v.k] for a property name [k] that no prototype defines (all the
    names read below are such): a [TypeError] on [null] and [undefined]. *)
Definition get (v : value) (k : string) : Res value :=
  match v with
  | VUndefined =>
      Throw ("Cannot read properties of undefined (reading '" ++ k ++ "')")
  | VNull => Throw ("Cannot read properties of null (reading '" ++ k ++ "')")
  | VObj fields => Ok (lookup_field k fields)
  | _ => Ok VUndefined
  end.

(** [v?.k] *)
Definition get_opt (v : value) (k : string) : value :=
  match v with
  | VObj fields => lookup_field k fields
  | _ => VUndefined
  end.

Fixpoint set_field (k : string) (v : value) (fields : list (string * value))
  : list (string * value) :=
  match fields with
  | [] => [(k, v)]
  | (k', v') :: rest =>
      if String.eqb k k' then (k, v) :: rest else (k', v') :: set_field k v rest
  end.

Definition index_key (i : nat) : string := NilEmpty.string_of_uint (Nat.to_uint i).

Fixpoint indexed_from {A} (f : A -> value) (i : nat) (l : list A)
  : list (string * value) :=
  match l with
  | [] => []
  | x :: l' => (index_key i, f x) :: indexed_from f (S i) l'
  end.

(** The own enumerable properties that [{...v}] copies. *)
Definition own_properties (v : value) : list (string * value) :=
  match v with
  | VObj fields => fields
  | VArr items => indexed_from (fun x => x) 0 items
  | VStr s =>
      indexed_from (fun c => VStr (String c EmptyString)) 0 (list_ascii_of_string s)
  | _ => []
  end.

(** [strings.includes(v)] for an array of strings *)
Definition includes_value (strings : list string) (v : value) : bool :=
  match v with
  | VStr s => existsb (String.eqb s) strings
  | _ => false
  end.

End Js.

(** ** src/utils/aiAnalyzer.js: the pure parts *)
Module Analyzer.
Import Js.

Record Keywords : Type := {
  hardSkills : value;
  softSkills : value;
  certifications : value
}.

(** The object [analyzeResume] returns. *)
Record AnalysisResult : Type := {
  matchScore : value;
  missingKeywords : Keywords;
  foundKeywords : Keywords;
  actionableTips : list value;
  aiSummary : value
}.

Definition lines (l : list string) : string := String.concat nl l.

Definition promptHeader (resumeText : string) : string :=
  lines [
    "You are an expert resume analyst and career coach. Analyze resumes and provide detailed, actionable feedback.";
    "";
    "Analyze the following resume and provide a detailed assessment in JSON format. Current year is 2026 , avoid commenting on any dates";
    "";
    "**RESUME TEXT:**";
    resumeText;
    "";
    "" ].

Definition promptJobBlock (jobDescription : string) : string :=
  lines [
    "**JOB DESCRIPTION:**";
    jobDescription;
    "";
    "Compare the resume against this job description.";
    "" ].

Definition q (s : string) : string := dquote ++ s ++ dquote.

Definition promptFormat : string :=
  lines [
    "**REQUIRED JSON OUTPUT FORMAT:**";
    "{";
    "  " ++ q "matchScore" ++ ": <number 0-100>,";
    "  " ++ q "missingKeywords" ++ ": {";
    "    " ++ q "hardSkills" ++ ": [<array of technical skills/tools missing>],";
    "    " ++ q "softSkills" ++ ": [<array of soft skills missing>],";
    "    " ++ q "certifications" ++ ": [<array of certifications that would help>]";
    "  },";
    "  " ++ q "foundKeywords" ++ ": {";
    "    " ++ q "hardSkills" ++ ": [<array of technical skills/tools found>],";
    "    " ++ q "softSkills" ++ ": [<array of soft skills found>],";
    "    " ++ q "certifications" ++ ": [<array of certifications found>]";
    "  },";
    "  " ++ q "actionableTips" ++ ": [";
    "    {";
    "      " ++ q "category" ++ ": " ++ q "<formatting|content|keywords|impact|structure>" ++ ",";
    "      " ++ q "suggestion" ++ ": " ++ q "<specific actionable tip>" ++ ",";
    "      " ++ q "priority" ++ ": " ++ q "<high|medium|low>";
    "    }";
    "  ],";
    "  " ++ q "summary" ++ ": " ++ q "<2-3 sentence overall assessment>";
    "}";
    "";
    "**ANALYSIS CRITERIA:**";
    "1. **Match Score**: If job description provided, score compatibility (0-100). Otherwise, score overall resume quality.";
    "2. **Keywords**: Identify technical skills, soft skills, and certifications.";
    "3. **Tips**: Focus on:";
    "   - Formatting improvements (bullet points, consistency)";
    "   - Content enhancements (quantify achievements, action verbs)";
    "   - Keyword optimization (ATS compatibility)";
    "   - Impact statements (results-oriented language)";
    "   - Structure (clear sections, logical flow)";
    "4. **Summary**: Provide constructive, encouraging feedback.";
    "";
    "Return ONLY valid JSON matching the exact format above." ].

(** [buildAnalysisPrompt]; [if (jobDescription)] holds for a non-empty string. *)
Definition buildAnalysisPrompt (resumeText jobDescription : string) : string :=
  let prompt := promptHeader resumeText in
  let prompt :=
    if negb (String.eqb jobDescription "")
    then prompt ++ promptJobBlock jobDescription
    else prompt in
  prompt ++ promptFormat.

(** The default parameter [jobDescription = '']: [None] is an argument left
    out or [undefined]. *)
Definition defaultJobDescription (jobDescription : option string) : string :=
  match jobDescription with
  | Some jd => jd
  | None => ""
  end.

Definition testPrompt : string := "respond with: {" ++ q "test" ++ ":true}".

(** The test of the inner [catch (quotaError)]. *)
Definition isQuotaSignal (message : string) : bool :=
  includes message "429" || includes message "quota".

(** The messages of the outer [catch (error)]. *)
Definition classifyError (message : string) : string :=
  if includes message "API key" || includes message "API_KEY_INVALID"
  then "Invalid or missing Gemini API key. Check your .env file."
  else if includes message "quota" || includes message "RESOURCE_EXHAUSTED"
  then "Gemini API quota exceeded. Please try again later."
  else "AI analysis failed: " ++ message.

Fixpoint drop (n : nat) (s : string) : string :=
  match n, s with
  | S n', String _ s' => drop n' s'
  | _, _ => s
  end.

(** [text.match(/```(?:json)?\s*([\s\S]*?)```/)], as the backtracking
    matcher runs it. [untilFence]: the lazy group, up to the next fence. *)
Fixpoint untilFence (s : string) : option string :=
  if startsWith s fence then Some EmptyString
  else match s with
       | EmptyString => None
       | String c s' => option_map (String c) (untilFence s')
       end.

(** [\s*], greedy, giving back one code unit at a time. *)
Fixpoint afterSpaces (s : string) : option string :=
  match s with
  | EmptyString => untilFence s
  | String c s' =>
      if isWhitespace c
      then match afterSpaces s' with
           | Some captured => Some captured
           | None => untilFence s
           end
      else untilFence s
  end.

(** [(?:json)?]: first with the tag, then without. *)
Definition afterOpeningFence (s : string) : option string :=
  match (if startsWith s "json" then afterSpaces (drop 4 s) else None) with
  | Some captured => Some captured
  | None => afterSpaces s
  end.

(** Start positions from left to right; the result is group 1. *)
Fixpoint matchFence (s : string) : option string :=
  match (if startsWith s fence then afterOpeningFence (drop 3 s) else None) with
  | Some captured => Some captured
  | None =>
      match s with
      | EmptyString => None
      | String _ s' => matchFence s'
      end
  end.

(** The [if (useGemma)] block. *)
Definition extractJson (useGemma : bool) (text : string) : string :=
  if useGemma
  then match matchFence text with
       | Some captured => trim captured
       | None => text
       end
  else text.

Definition validCategories : list string :=
  ["formatting"; "content"; "keywords"; "impact"; "structure"].

(** The callback of [actionableTips.map]. *)
Definition normalizeTip (tip : value) : Res value :=
  res_bind (get tip "category") (fun category =>
  Ok (VObj (set_field "category"
              (if includes_value validCategories category
               then category else VStr "content")
              (own_properties tip)))).

(** [(tips || []).map(...)]: only an array has [map]. *)
Definition mapTips (tips : value) : Res (list value) :=
  match or_else tips (VArr []) with
  | VArr items => res_mapM normalizeTip items
  | _ => Throw "(aiResponse.actionableTips || []).map is not a function"
  end.

Definition keywordsOf (group : value) : Keywords :=
  {| hardSkills := or_else (get_opt group "hardSkills") (VArr []);
     softSkills := or_else (get_opt group "softSkills") (VArr []);
     certifications := or_else (get_opt group "certifications") (VArr []) |}.

(** The [return { ... }] of [analyzeResume], from the parsed reply. *)
Definition normalize (aiResponse : value) : Res AnalysisResult :=
  res_bind (get aiResponse "matchScore") (fun score =>
  res_bind (get aiResponse "missingKeywords") (fun missing =>
  res_bind (get aiResponse "foundKeywords") (fun found =>
  res_bind (get aiResponse "actionableTips") (fun tips =>
  res_bind (mapTips tips) (fun tips' =>
  res_bind (get aiResponse "summary") (fun summary =>
  Ok {| matchScore := or_else score (VNum 0);
        missingKeywords := keywordsOf missing;
        foundKeywords := keywordsOf found;
        actionableTips := tips';
        aiSummary := or_else summary (VStr "") |})))))).

End Analyzer.

(** ** The state the request handlers run in *)

(** The two model configurations of [analyzeResume]: [gemini-2.0-flash]
    with a JSON response type, and [gemma-3-27b-it]. *)
Inductive Tier : Type := Primary | Fallback.

(** An uploaded file: what [pdf-parse] and [mammoth] make of its bytes,
    and whether the file system refuses to unlink it. *)
Record File : Type := {
  pdfText : Res string;
  docxText : Res string;
  undeletable : bool
}.

Inductive Status : Type := processing | completed | failed.

(** A document of the [Resume] model (src/models/Resume.js). *)
Record ResumeDoc : Type := {
  user : nat;
  originalFileName : string;
  filePath : string;
  extractedText : string;
  jobDescription : string;
  analysis : option Analyzer.AnalysisResult;
  status : Status
}.

Inductive Level : Type := LLog | LWarn | LError.

Inductive LogArg : Type :=
| AStr (s : string)
| AVal (v : value)
| AError (message : string)
| AStack (message : string).

(** [files]: the upload directory; [db]: the persisted [Resume]
    collection by [_id]; [console]: what was written with [console.log],
    [console.warn] and [console.error], oldest first (the pictographs
    that open some of the texts are beyond the code units modelled and
    are left out); [calls]: the requests sent to the generative backend
    so far, oldest first; [resume_obj]: the Mongoose document a handler
    holds in its variable [resume], with the fields it has in memory. *)
Record World (B : Type) : Type := {
  files : gmap string File;
  db : gmap nat ResumeDoc;
  console : list (Level * list LogArg);
  backend : B;
  calls : list (Tier * string);
  resume_obj : option (nat * ResumeDoc)
}.
Arguments files {B} w.
Arguments db {B} w.
Arguments console {B} w.
Arguments backend {B} w.
Arguments calls {B} w.
Arguments resume_obj {B} w.

Definition with_files {B} (f : gmap string File) (w : World B) : World B :=
  {| files := f; db := db w; console := console w; backend := backend w;
     calls := calls w; resume_obj := resume_obj w |}.
Definition with_db {B} (d : gmap nat ResumeDoc) (w : World B) : World B :=
  {| files := files w; db := d; console := console w; backend := backend w;
     calls := calls w; resume_obj := resume_obj w |}.
Definition with_console {B} (c : list (Level * list LogArg)) (w : World B) : World B :=
  {| files := files w; db := db w; console := c; backend := backend w;
     calls := calls w; resume_obj := resume_obj w |}.
Definition with_backend {B} (b : B) (cs : list (Tier * string)) (w : World B) : World B :=
  {| files := files w; db := db w; console := console w; backend := b;
     calls := cs; resume_obj := resume_obj w |}.
Definition with_resume {B} (r : option (nat * ResumeDoc)) (w : World B) : World B :=
  {| files := files w; db := db w; console := console w; backend := backend w;
     calls := calls w; resume_obj := r |}.

(** An [async] function body: it runs on the world and completes with a
    value or a thrown error; the effects made before a throw stay. *)
Definition M (B A : Type) : Type := World B -> Res A * World B.

Definition ret {B A} (a : A) : M B A := fun w => (Ok a, w).
Definition throw {B A} (message : string) : M B A := fun w => (Throw message, w).
Definition bind {B A C} (m : M B A) (k : A -> M B C) : M B C :=
  fun w => match m w with
           | (Ok a, w') => k a w'
           | (Throw e, w') => (Throw e, w')
           end.
(** [try { m } catch (error) { h error }] *)
Definition try_catch {B A} (m : M B A) (h : string -> M B A) : M B A :=
  fun w => match m w with
           | (Ok a, w') => (Ok a, w')
           | (Throw e, w') => h e w'
           end.
Definition lift {B A} (r : Res A) : M B A := fun w => (r, w).

Notation "x <- m ;; k" := (bind m (fun x => k))
  (at level 100, m at next level, right associativity).
Notation "m ;;; k" := (bind m (fun _ => k))
  (at level 100, right associativity).

Definition console_out {B} (l : Level) (args : list LogArg) : M B unit :=
  fun w => (Ok tt, with_console (console w ++ [(l, args)]) w).

Definition setAnalysis (a : option Analyzer.AnalysisResult) (d : ResumeDoc) : ResumeDoc :=
  {| user := user d; originalFileName := originalFileName d;
     filePath := filePath d; extractedText := extractedText d;
     jobDescription := jobDescription d; analysis := a; status := status d |}.
Definition setStatus (s : Status) (d : ResumeDoc) : ResumeDoc :=
  {| user := user d; originalFileName := originalFileName d;
     filePath := filePath d; extractedText := extractedText d;
     jobDescription := jobDescription d; analysis := analysis d; status := s |}.

(** [fs.readFile(path)] *)
Definition fs_readFile {B} (path : string) : M B File :=
  fun w => match files w !! path with
           | Some f => (Ok f, w)
           | None => (Throw ("ENOENT: no such file or directory, open '" ++ path ++ "'"), w)
           end.

(** [fs.unlink(path)] *)
Definition fs_unlink {B} (path : string) : M B unit :=
  fun w => match files w !! path with
           | Some f =>
               if undeletable f
               then (Throw ("EPERM: operation not permitted, unlink '" ++ path ++ "'"), w)
               else (Ok tt, with_files (delete path (files w)) w)
           | None => (Throw ("ENOENT: no such file or directory, unlink '" ++ path ++ "'"), w)
           end.

(** ** src/utils/fileParser.js *)
Module FileParser.

Definition parsePDF {B} (filePath : string) : M B string :=
  try_catch
    (dataBuffer <- fs_readFile filePath ;;
     lift (pdfText dataBuffer))
    (fun error => throw ("PDF parsing failed: " ++ error)).

Definition parseDOCX {B} (filePath : string) : M B string :=
  try_catch
    (document <- fs_readFile filePath ;;
     lift (docxText document))
    (fun error => throw ("DOCX parsing failed: " ++ error)).

Definition unsupportedFormat : string :=
  "Unsupported file format. Only PDF and DOCX are allowed.".
Definition textTooShort : string :=
  "Could not extract meaningful text from the file.".

Definition parseResume {B} (filePath : string) : M B string :=
  let ext := toLowerCase (extname filePath) in
  extractedText <-
    (if String.eqb ext ".pdf" then parsePDF filePath
     else if String.eqb ext ".docx" then parseDOCX filePath
     else throw unsupportedFormat) ;;
  let extractedText := trim (collapseWhitespace extractedText) in
  if String.eqb extractedText "" || (String.length extractedText <? 50)%nat
  then throw textTooShort
  else ret extractedText.

End FileParser.

(** ** The request handlers, over their collaborators

    [invoke]: the generative backend, one round trip
    ([generateContent] and reading [response.text()]) on a tier;
    [JSON_parse]: the built-in [JSON.parse];
    [validate]: Mongoose's casting and validation of a document against
    [ResumeSchema], run by [create] and by [save]. *)
Section Handlers.
Context {B : Type}.
Variable invoke : Tier -> string -> B -> Res string * B.
Variable JSON_parse : string -> Res value.
Variable validate : ResumeDoc -> Res unit.

Definition generateContent (model : Tier) (prompt : string) : M B string :=
  fun w =>
    let '(r, b) := invoke model prompt (backend w) in
    (r, with_backend b (calls w ++ [(model, prompt)]) w).

(** The inner [try]/[catch (quotaError)] of [analyzeResume]: the model
    the real request will use. *)
Definition chooseModel : M B Tier :=
  try_catch
    (_ <- generateContent Primary Analyzer.testPrompt ;;
     ret Primary)
    (fun quotaError =>
       if Analyzer.isQuotaSignal quotaError
       then
         console_out LLog
           [AStr "Gemini quota exceeded, switching to gemma-3-27b-it fallback model"] ;;;
         ret Fallback
       else throw quotaError).

Definition useGemma (model : Tier) : bool :=
  match model with
  | Fallback => true
  | Primary => false
  end.

Definition analyzeResume (resumeText : string) (jobDescription : option string)
  : M B Analyzer.AnalysisResult :=
  let jobDescription := Analyzer.defaultJobDescription jobDescription in
  try_catch
    (model <- chooseModel ;;
     let prompt := Analyzer.buildAnalysisPrompt resumeText jobDescription in
     text <- generateContent model prompt ;;
     let text := Analyzer.extractJson (useGemma model) text in
     aiResponse <-
       try_catch (lift (JSON_parse text))
         (fun parseError =>
            console_out LError
              [AStr "Failed to parse AI response:"; AStr (take 500 text)] ;;;
            throw "AI returned invalid JSON response") ;;
     lift (Analyzer.normalize aiResponse))
    (fun error =>
       console_out LError [AStr "Gemini API Error Details:"] ;;;
       console_out LError [AStr "- Message:"; AStr error] ;;;
       console_out LError [AStr "- Stack:"; AStack error] ;;;
       console_out LError [AStr "- Full Error:"; AError error] ;;;
       throw (Analyzer.classifyError error)).

(** [Resume.create(doc)]: validated, stored under a fresh [_id], and
    handed back as the document [resume]. *)
Definition Resume_create (doc : ResumeDoc) : M B unit :=
  fun w =>
    match validate doc with
    | Throw e => (Throw e, w)
    | Ok _ =>
        let id := fresh (dom (db w)) in
        (Ok tt, with_resume (Some (id, doc)) (with_db (<[id := doc]> (db w)) w))
    end.

(** [resume.field = ...] on the document in memory. *)
Definition resume_update (f : ResumeDoc -> ResumeDoc) : M B unit :=
  fun w =>
    match resume_obj w with
    | Some (id, doc) => (Ok tt, with_resume (Some (id, f doc)) w)
    | None => (Throw "Cannot set properties of undefined", w)
    end.

(** [resume.save()]: the document in memory is validated, then written. *)
Definition resume_save : M B unit :=
  fun w =>
    match resume_obj w with
    | Some (id, doc) =>
        match validate doc with
        | Throw e => (Throw e, w)
        | Ok _ => (Ok tt, with_db (<[id := doc]> (db w)) w)
        end
    | None => (Throw "Cannot read properties of undefined (reading 'save')", w)
    end.

Definition resume_read : M B ResumeDoc :=
  fun w =>
    match resume_obj w with
    | Some (_, doc) => (Ok doc, w)
    | None => (Throw "resume is not defined", w)
    end.

(** ** src/controllers/resumeController.js *)

(** [req.file] as Multer leaves it, [req.body.jobDescription], [req.user._id]. *)
Record Upload : Type := { originalname : string; path : string }.
Record Request : Type := {
  file : option Upload;
  body_jobDescription : option string;
  user_id : nat
}.

(** [res.status(code).json({ success, message, error, data })] *)
Record Response : Type := {
  statusCode : nat;
  success : bool;
  message : string;
  error : option string;
  data : option ResumeDoc
}.

(** [jobDescription || ''] *)
Definition orEmpty (s : option string) : string :=
  match s with
  | Some s => s
  | None => ""
  end.

(** Step 3 and 4 of [uploadResume]: the inner [try]/[catch (aiError)].
    [Some response] is the [return] inside the [catch]. *)
Definition analysisStep (extractedText : string) (jobDescription : option string)
  : M B (option Response) :=
  try_catch
    (analysis <- analyzeResume extractedText jobDescription ;;
     resume_update (setAnalysis (Some analysis)) ;;;
     resume_update (setStatus completed) ;;;
     resume_save ;;;
     console_out LLog
       [AStr "Analysis complete. Score: "; AVal (Analyzer.matchScore analysis); AStr "%"] ;;;
     ret None)
    (fun aiError =>
       resume_update (setStatus failed) ;;;
       resume_save ;;;
       ret (Some {| statusCode := 500; success := false;
                    message := "AI analysis failed. Please try again.";
                    error := Some aiError; data := None |})).

Definition uploadResume (req : Request) : M B Response :=
  try_catch
    (match file req with
     | None =>
         ret {| statusCode := 400; success := false;
                message := "Please upload a resume file";
                error := None; data := None |}
     | Some f =>
         let jobDescription := body_jobDescription req in
         console_out LLog [AStr ("Parsing file: " ++ originalname f)] ;;;
         extractedText <- FileParser.parseResume (path f) ;;
         Resume_create
           {| user := user_id req;
              originalFileName := originalname f;
              filePath := path f;
              extractedText := extractedText;
              jobDescription := orEmpty jobDescription;
              analysis := None;
              status := processing |} ;;;
         console_out LLog [AStr "Sending to AI for analysis..."] ;;;
         returned <- analysisStep extractedText jobDescription ;;
         match returned with
         | Some response => ret response
         | None =>
             try_catch (fs_unlink (path f))
               (fun unlinkError =>
                  console_out LWarn
                    [AStr "Could not delete temporary file:"; AStr unlinkError]) ;;;
             resume <- resume_read ;;
             ret {| statusCode := 201; success := true;
                    message := "Resume analyzed successfully";
                    error := None; data := Some resume |}
         end
     end)
    (fun error =>
       console_out LError [AStr "Upload error:"; AError error] ;;;
       match file req with
       | Some f =>
           if negb (String.eqb (path f) "")
           then try_catch (fs_unlink (path f))
                  (fun unlinkError =>
                     console_out LWarn
                       [AStr "Could not delete file after error:"; AStr unlinkError])
           else ret tt
       | None => ret tt
       end ;;;
       ret {| statusCode := 500; success := false;
              message := "Error processing resume";
              error := Some error; data := None |}).

End Handlers.

(** ** src/services/jobService.js *)
Module JobService.

(** *** Numbers

    The quotient and the product of [calculateMatchScore] are computed
    on IEEE 754 binary64 values, as JavaScript does. What [Math.round]
    returns is an integer, an infinity or NaN; on those, [Math.max],
    [Math.min] and the subtraction of two scores are exact. *)
Definition prec : Z := 53.
Definition emax : Z := 1024.

Definition double : Type := spec_float.
Definition of_nat (n : nat) : double := binary_normalize prec emax (Z.of_nat n) 0 false.
Definition div : double -> double -> double := SFdiv prec emax.
Definition mul : double -> double -> double := SFmul prec emax.

Inductive Rounded : Type :=
| RNaN
| RInfinity (negative : bool)
| RInt (z : Z).

(** The integer [floor (x + 1/2)] for the finite [x = (-1)^s * m * 2^e]. *)
Definition floorHalfUp (s : bool) (m : positive) (e : Z) : Z :=
  let v := cond_Zopp s (Zpos m) in
  if (0 <=? e)%Z then (v * 2 ^ e)%Z
  else ((v + 2 ^ (- e - 1)) / 2 ^ (- e))%Z.

(** [Math.round(x)]: the nearest integer, a tie going up. *)
Definition Math_round (x : double) : Rounded :=
  match x with
  | S754_nan => RNaN
  | S754_infinity s => RInfinity s
  | S754_zero _ => RInt 0
  | S754_finite s m e => RInt (floorHalfUp s m e)
  end.

Definition Math_max (x y : Rounded) : Rounded :=
  match x, y with
  | RNaN, _ | _, RNaN => RNaN
  | RInfinity false, _ | _, RInfinity false => RInfinity false
  | RInfinity true, z | z, RInfinity true => z
  | RInt a, RInt b => RInt (Z.max a b)
  end.

Definition Math_min (x y : Rounded) : Rounded :=
  match x, y with
  | RNaN, _ | _, RNaN => RNaN
  | RInfinity true, _ | _, RInfinity true => RInfinity true
  | RInfinity false, z | z, RInfinity false => z
  | RInt a, RInt b => RInt (Z.min a b)
  end.

(** [x - y] *)
Definition minus (x y : Rounded) : Rounded :=
  match x, y with
  | RNaN, _ | _, RNaN => RNaN
  | RInfinity s, RInfinity s' => if Bool.eqb s s' then RNaN else RInfinity s
  | RInfinity s, RInt _ => RInfinity s
  | RInt _, RInfinity s => RInfinity (negb s)
  | RInt a, RInt b => RInt (a - b)
  end.

(** [v > 0], as [sort] reads the result of its comparator. *)
Definition positive_result (v : Rounded) : bool :=
  match v with
  | RInt z => (0 <? z)%Z
  | RInfinity negative => negb negative
  | RNaN => false
  end.

(** *** Listings and skills *)
Record Job : Type := {
  id : string;
  title : string;
  company : string;
  location : string;
  description : string;
  url : string;
  salary : string;
  postedDate : string;
  category : string;
  source : string
}.

(** [resume.analysis.foundKeywords], each part possibly missing. *)
Record FoundKeywords : Type := {
  foundHard : option (list string);
  foundSoft : option (list string);
  foundCertifications : option (list string)
}.

Record Resume : Type := { foundKeywords : option FoundKeywords }.

Record UserSkills : Type := {
  hardSkills : list string;
  softSkills : list string;
  certifications : list string;
  allSkills : list string
}.

(** [part || []], under [foundKeywords?.] *)
Definition listOr (k : option FoundKeywords)
    (part : FoundKeywords -> option (list string)) : list string :=
  match k with
  | Some k => match part k with Some l => l | None => [] end
  | None => []
  end.

Definition extractSkills (resume : Resume) : UserSkills :=
  let k := foundKeywords resume in
  {| hardSkills := listOr k foundHard;
     softSkills := listOr k foundSoft;
     certifications := listOr k foundCertifications;
     allSkills := (listOr k foundHard ++ listOr k foundSoft)%list |}.

Definition buildSearchQuery (skills : UserSkills) : string :=
  let topSkills := firstn 3 (hardSkills skills) in
  if (length topSkills =? 0)%nat then "software developer"
  else String.concat " " topSkills.

Definition jobText (job : Job) : string :=
  toLowerCase (title job ++ " " ++ description job).

Definition skillMatches (job : Job) (skill : string) : bool :=
  includes (jobText job) (toLowerCase skill).

Definition calculateMatchScore (job : Job) (userSkills : UserSkills) : Rounded :=
  let totalSkills := length (allSkills userSkills) in
  if (totalSkills =? 0)%nat then RInt 50
  else
    let matchedCount :=
      fold_left (fun count skill => if skillMatches job skill then S count else count)
        (allSkills userSkills) 0%nat in
    let score := Math_round (mul (div (of_nat matchedCount) (of_nat totalSkills)) (of_nat 100)) in
    Math_min (RInt 100) (Math_max (RInt 0) score).

Definition findMatchedSkills (job : Job) (userSkills : UserSkills) : list string :=
  fold_left (fun matched skill => if skillMatches job skill then (matched ++ [skill])%list else matched)
    (allSkills userSkills) [].

(** A listing with the three fields [matchJobsWithResume] adds. *)
Record ScoredJob : Type := {
  job : Job;
  matchScore : Rounded;
  matchedSkills : list string;
  missingSkills : list string
}.

Definition scoreJob (userSkills : UserSkills) (j : Job) : ScoredJob :=
  let matched := findMatchedSkills j userSkills in
  {| job := j;
     matchScore := calculateMatchScore j userSkills;
     matchedSkills := matched;
     missingSkills :=
       List.filter (fun skill => negb (existsb (String.eqb skill) matched))
         (hardSkills userSkills) |}.

(** *** [Array.prototype.sort(comparefn)]

    The language requires the sort to be stable; an insertion sort is
    one such: an element moves right past those the comparator puts
    strictly before it. *)
Fixpoint insert_sorted {A} (comparefn : A -> A -> Rounded) (x : A) (sorted : list A) : list A :=
  match sorted with
  | [] => [x]
  | y :: rest =>
      if positive_result (comparefn x y) then y :: insert_sorted comparefn x rest
      else x :: sorted
  end.

Definition Array_sort {A} (comparefn : A -> A -> Rounded) (l : list A) : list A :=
  fold_right (insert_sorted comparefn) [] l.

(** [(a, b) => b.matchScore - a.matchScore] *)
Definition byScoreDescending (a b : ScoredJob) : Rounded :=
  minus (matchScore b) (matchScore a).

(** Lines 132-148: score every listing, then sort. *)
Definition rankJobs (jobs : list Job) (userSkills : UserSkills) : list ScoredJob :=
  Array_sort byScoreDescending (map (scoreJob userSkills) jobs).

Record Options : Type := { optLocation : option string; optPage : option nat }.

(** [fetchJobsFromAPI] is the upstream source: it answers every query
    with a list of listings (the mock catalog when the search fails). *)
Definition matchJobsWithResume
    (fetchJobsFromAPI : string -> string -> nat -> list Job)
    (resume : Resume) (options : Options) : list ScoredJob :=
  let userSkills := extractSkills resume in
  let searchQuery := buildSearchQuery userSkills in
  let jobs :=
    fetchJobsFromAPI searchQuery
      (match optLocation options with
       | Some l => if String.eqb l "" then "in" else l
       | None => "in"
       end)
      (match optPage options with
       | Some (S p) => S p
       | _ => 1%nat
       end) in
  rankJobs jobs userSkills.

End JobService.

(** ** The properties stated in Part II *)
Module Stated.
Import Js Analyzer.

(** A bucket is the empty sequence when its field is absent. *)
Definition bucketsDefault (group : value) (k : Keywords) : Prop :=
  (get_opt group "hardSkills" = VUndefined -> hardSkills k = VArr []) /\
  (get_opt group "softSkills" = VUndefined -> softSkills k = VArr []) /\
  (get_opt group "certifications" = VUndefined -> certifications k = VArr []).

(** The defaults of the result [a] decoded from the reply [aiResponse]. *)
Definition defaultsHold (aiResponse : value) (a : AnalysisResult) : Prop :=
  bucketsDefault (get_opt aiResponse "missingKeywords") (missingKeywords a) /\
  bucketsDefault (get_opt aiResponse "foundKeywords") (foundKeywords a) /\
  (get_opt aiResponse "matchScore" = VUndefined -> matchScore a = VNum 0) /\
  (truthy (get_opt aiResponse "matchScore") = false -> matchScore a = VNum 0) /\
  (truthy (get_opt aiResponse "matchScore") = true ->
   matchScore a = get_opt aiResponse "matchScore") /\
  (get_opt aiResponse "summary" = VUndefined -> aiSummary a = VStr "").

Definition isNumber (v : value) : Prop := exists n, v = VNum n.

Definition validCategory (c : value) : Prop := In c (map VStr validCategories).

(** [tip'] is an object whose category is that of [tip] when valid, and
    [content] otherwise. *)
Definition categoryCoerced (tip tip' : value) : Prop :=
  exists fields,
    tip' = VObj fields /\
    (validCategory (get_opt tip "category") ->
     lookup_field "category" fields = get_opt tip "category") /\
    (~ validCategory (get_opt tip "category") ->
     lookup_field "category" fields = VStr "content").

(** [prompt] frames a request made with the job description [jd]: the
    job-description block stands between the header and the format
    exactly when the description is a non-empty string, and an empty
    string counts as a description left out. *)
Definition framing (resumeText : string) (jd : option string) (prompt : string) : Prop :=
  (jd = None \/ jd = Some "" -> prompt = promptHeader resumeText ++ promptFormat) /\
  (forall d, jd = Some d -> d <> "" ->
     prompt = promptHeader resumeText ++ promptJobBlock d ++ promptFormat) /\
  (prompt = promptHeader resumeText ++ promptFormat <-> jd = None \/ jd = Some "").

End Stated.

(** ** What a call of [analyzeResume] amounts to *)
Module Outcome.
Import Analyzer.

(** A computation that leaves files, records and the handler's document
    as they are. *)
Definition keepsStore {B A} (m : M B A) : Prop :=
  forall w,
    files (snd (m w)) = files w /\
    db (snd (m w)) = db w /\
    resume_obj (snd (m w)) = resume_obj w.

(** The reply text, parsed and decoded. *)
Definition decoded (JSON_parse : string -> Res value) (text : string)
  : Res AnalysisResult :=
  match JSON_parse text with
  | Ok aiResponse => normalize aiResponse
  | Throw _ => Throw "AI returned invalid JSON response"
  end.

Definition classified {A} (r : Res A) : Res A :=
  match r with
  | Ok a => Ok a
  | Throw e => Throw (classifyError e)
  end.

(** The completion of [analyzeResume] as a function of the backend. *)
Definition analysisOutcome {B} (invoke : Tier -> string -> B -> Res string * B)
    (JSON_parse : string -> Res value)
    (resumeText : string) (jobDescription : option string) (b : B)
  : Res AnalysisResult :=
  let prompt := buildAnalysisPrompt resumeText (defaultJobDescription jobDescription) in
  match invoke Primary testPrompt b with
  | (Ok _, b1) =>
      classified (res_bind (fst (invoke Primary prompt b1))
                    (fun reply => decoded JSON_parse reply))
  | (Throw m, b1) =>
      if isQuotaSignal m
      then classified (res_bind (fst (invoke Fallback prompt b1))
                         (fun reply => decoded JSON_parse (extractJson true reply)))
      else Throw (classifyError m)
  end.

End Outcome.

(** ** Statements about [uploadResume] *)
Module UploadStated.

(** The extractor chosen by the extension of [path] reads [raw] from [f]. *)
Definition extractsTo (path : string) (f : File) (raw : string) : Prop :=
  (toLowerCase (extname path) = ".pdf" /\ pdfText f = Ok raw) \/
  (toLowerCase (extname path) = ".docx" /\ docxText f = Ok raw).

(** What [parseResume] makes of the raw text. *)
Definition cleaned (raw : string) : string := trim (collapseWhitespace raw).

(** The record [uploadResume] creates in step 2. *)
Definition createdDoc (req : Request) (f : Upload) (text : string) : ResumeDoc :=
  {| user := user_id req;
     originalFileName := originalname f;
     filePath := path f;
     extractedText := text;
     jobDescription := orEmpty (body_jobDescription req);
     analysis := None;
     status := processing |}.

(** The response of the outer [catch]. *)
Definition errorResponse (e : string) : Response :=
  {| statusCode := 500; success := false;
     message := "Error processing resume";
     error := Some e; data := None |}.

(** The response of the inner [catch]. *)
Definition analysisFailedResponse (e : string) : Response :=
  {| statusCode := 500; success := false;
     message := "AI analysis failed. Please try again.";
     error := Some e; data := None |}.

End UploadStated.

(** ** Statements about scoring and ranking *)
Module JobStated.
Import JobService.
Local Open Scope Z_scope.

(** A JavaScript array has fewer than 2^32 elements. *)
Definition withinArrayLimit {A} (l : list A) : Prop := Z.of_nat (length l) < 2 ^ 32.

(** The number of skills whose lower-cased text occurs in the listing's
    lower-cased title and description. *)
Definition matchedCount (j : Job) (skills : UserSkills) : nat :=
  length (List.filter (skillMatches j) (allSkills skills)).

(** [(matched / total) * 100] on doubles. *)
Definition product (matched total : nat) : double :=
  mul (div (of_nat matched) (of_nat total)) (of_nat 100).

(** [Math.min(100, Math.max(0, Math.round(x)))] *)
Definition clampRound (x : double) : Rounded :=
  Math_min (RInt 100) (Math_max (RInt 0) (Math_round x)).

(** The integer nearest to the fraction [a / b], a half going up: the
    [round] of the specification, on exact numbers. *)
Definition nearest (a b : Z) : Z := (2 * a + b) / (2 * b).

(** The fraction [a / b] rounded as the code rounds it. *)
Definition roundsExactly (total matched : nat) : bool :=
  match clampRound (product matched total) with
  | RInt z => z =? nearest (100 * Z.of_nat matched) (Z.of_nat total)
  | _ => false
  end.

Definition scoreOf (j : ScoredJob) : Z :=
  match matchScore j with
  | RInt z => z
  | _ => 0
  end.

Definition hasIntScore (j : ScoredJob) : Prop := exists z, matchScore j = RInt z.

(** [a] may stand before [b] in a descending ranking. *)
Definition descending (a b : ScoredJob) : Prop := scoreOf b <= scoreOf a.

Definition scored (z : Z) (j : ScoredJob) : bool := scoreOf j =? z.

(** What the upstream source returns to [matchJobsWithResume]. *)
Definition upstream (fetchJobsFromAPI : string -> string -> nat -> list Job)
    (resume : Resume) (options : Options) : list Job :=
  fetchJobsFromAPI (buildSearchQuery (extractSkills resume))
    (match optLocation options with
     | Some l => if String.eqb l "" then "in"%string else l
     | None => "in"%string
     end)
    (match optPage options with
     | Some (S p) => S p
     | _ => 1%nat
     end).

End JobStated.

(** ** Data of the examples *)
Module Examples.
Import Js Analyzer.

Definition replyWithSummaryOnly : value := VObj [("summary", VStr "Solid.")].

Definition emptyKeywords : Keywords :=
  {| hardSkills := VArr []; softSkills := VArr []; certifications := VArr [] |}.

Definition resultWithSummaryOnly : AnalysisResult :=
  {| matchScore := VNum 0;
     missingKeywords := emptyKeywords;
     foundKeywords := emptyKeywords;
     actionableTips := [];
     aiSummary := VStr "Solid." |}.

Definition replyWithWordScore : value := VObj [("matchScore", VStr "high")].

Definition replyWithOddTips : value :=
  VObj [("actionableTips",
         VArr [VObj [("category", VStr "impact"); ("suggestion", VStr "Quantify.")];
               VObj [("category", VStr "urgent"); ("suggestion", VStr "Shorten.")];
               VObj [("suggestion", VStr "Reorder.")]])].

Definition oddTips : list value :=
  [VObj [("category", VStr "impact"); ("suggestion", VStr "Quantify.")];
   VObj [("category", VStr "urgent"); ("suggestion", VStr "Shorten.")];
   VObj [("suggestion", VStr "Reorder.")]].

(** A backend that answers from a script, whatever it is asked. *)
Definition scripted (model : Tier) (prompt : string) (script : list (Res string))
  : Res string * list (Res string) :=
  match script with
  | r :: rest => (r, rest)
  | [] => (Throw "fetch failed", [])
  end.

(** [JSON.parse] on the few texts the examples use. *)
Definition parseKnown (text : string) : Res value :=
  if String.eqb text "{}" then Ok (VObj [])
  else if String.eqb text ("{" ++ q "matchScore" ++ ":150}")
  then Ok (VObj [("matchScore", VNum 150)])
  else Throw "Unexpected token in JSON".

Definition startWorld {B} (b : B) (fs : gmap string File) : World B :=
  {| files := fs; db := ∅; console := []; backend := b; calls := [];
     resume_obj := None |}.

Definition fencedReply : string := fence ++ "json" ++ (nl ++ "{}" ++ nl) ++ fence ++ "".

Definition emptyResult : AnalysisResult :=
  {| matchScore := VNum 0;
     missingKeywords := emptyKeywords;
     foundKeywords := emptyKeywords;
     actionableTips := [];
     aiSummary := VStr "" |}.

Definition quotaThenFenced : World (list (Res string)) :=
  startWorld [Throw "[429 Too Many Requests] quota exceeded"; Ok fencedReply] ∅.

(** The [min: 0] and [max: 100] validators that [ResumeSchema] declares
    on [analysis.matchScore], for a score that is a number; everything
    else about a document is taken to pass. *)
Definition scoreRangeValidator (d : ResumeDoc) : Res unit :=
  match analysis d with
  | Some a =>
      match matchScore a with
      | VNum n =>
          if (n <? 0)%Z
          then Throw "Resume validation failed: analysis.matchScore is less than minimum allowed value (0)."
          else if (100 <? n)%Z
          then Throw "Resume validation failed: analysis.matchScore is more than maximum allowed value (100)."
          else Ok tt
      | _ => Ok tt
      end
  | None => Ok tt
  end.

Definition uploadPath : string := "uploads/7_1700000000000.pdf".

Definition uploaded : Upload := {| originalname := "cv.pdf"; path := uploadPath |}.

Definition request : Request :=
  {| file := Some uploaded; body_jobDescription := None; user_id := 7 |}.

Definition notDocx : Res string :=
  Throw "Could not find the body element: are you sure this is a docx file?".

(** A scanned page: 30 characters of text. *)
Definition scannedRaw : string := "  Jane Doe,  engineer, since 2015 ".
Definition scannedPdf : File :=
  {| pdfText := Ok scannedRaw; docxText := notDocx; undeletable := false |}.

Definition resumeRaw : string :=
  "Jane Doe. Software engineer, ten years of React and Node.js; led a team of five.".
Definition resumePdf : File :=
  {| pdfText := Ok resumeRaw; docxText := notDocx; undeletable := false |}.

Definition trialOk : Res string := Ok ("{" ++ q "test" ++ ":true}").

(** The upload of a scanned page. *)
Definition scannedWorld : World (list (Res string)) :=
  startWorld [] {[ uploadPath := scannedPdf ]}.

(** The backend answers in prose: the analysis stage fails. *)
Definition proseWorld : World (list (Res string)) :=
  startWorld [trialOk; Ok "I cannot rate this resume."] {[ uploadPath := resumePdf ]}.

(** The backend rates the resume 150 out of 100. *)
Definition overratedWorld : World (list (Res string)) :=
  startWorld [trialOk; Ok ("{" ++ q "matchScore" ++ ":150}")]
    {[ uploadPath := resumePdf ]}.

Definition listing (t d : string) : JobService.Job :=
  {| JobService.id := ""; JobService.title := t; JobService.company := "";
     JobService.location := ""; JobService.description := d;
     JobService.url := ""; JobService.salary := ""; JobService.postedDate := "";
     JobService.category := ""; JobService.source := "Mock" |}.

Definition skillsOf (hard soft : list string) : JobService.Resume :=
  {| JobService.foundKeywords :=
       Some {| JobService.foundHard := Some hard;
               JobService.foundSoft := Some soft;
               JobService.foundCertifications := None |} |}.

(** Forty skills, twenty-three of them named by the listing. *)
Definition fortySkills : JobService.UserSkills :=
  JobService.extractSkills (skillsOf (repeat "react" 23) (repeat "teamwork" 17)).
(** Eight skills, one of them named by the listing. *)
Definition eightSkills : JobService.UserSkills :=
  JobService.extractSkills (skillsOf ["react"] (repeat "teamwork" 7)).
Definition reactListing : JobService.Job :=
  listing "Frontend Developer" "React developer needed".

Definition tenSkills : JobService.Resume :=
  skillsOf ["react"; "node"; "mongo"; "express"; "docker"; "aws"; "python"; "java"]
    ["sql"; "git"].

(** Four listings naming 4, 9, 4 and 1 of the ten skills. *)
Definition fourListings : list JobService.Job :=
  [listing "Frontend Developer" "react node mongo express";
   listing "Full Stack Developer" "react node mongo express docker aws python java sql";
   listing "Platform Developer" "docker aws python java";
   listing "Release Manager" "git"].

Definition fixedSource (query loc : string) (page : nat) : list JobService.Job :=
  fourListings.

Definition noOptions : JobService.Options :=
  {| JobService.optLocation := None; JobService.optPage := None |}.

Definition overratedResult : AnalysisResult :=
  {| matchScore := VNum 150;
     missingKeywords := emptyKeywords;
     foundKeywords := emptyKeywords;
     actionableTips := [];
     aiSummary := VStr "" |}.

Definition resultWithWordScore : AnalysisResult :=
  {| matchScore := VStr "high";
     missingKeywords := emptyKeywords;
     foundKeywords := emptyKeywords;
     actionableTips := [];
     aiSummary := VStr "" |}.

(** A reply whose second tip is [null]. *)
Definition nullTipText : string :=
  "{" ++ q "actionableTips" ++ ":[{" ++ q "category" ++ ":" ++ q "impact" ++ "},null]}".
Definition nullTipReply : value :=
  VObj [("actionableTips", VArr [VObj [("category", VStr "impact")]; VNull])].

(** A reply whose summary mentions a code fence. *)
Definition fenceInSummary : string := "Put code samples between " ++ fence ++ " lines.".
Definition backtickJson : string := "{" ++ q "summary" ++ ":" ++ q fenceInSummary ++ "}".
Definition backtickValue : value := VObj [("summary", VStr fenceInSummary)].
Definition backtickResult : AnalysisResult :=
  {| matchScore := VNum 0;
     missingKeywords := emptyKeywords;
     foundKeywords := emptyKeywords;
     actionableTips := [];
     aiSummary := VStr fenceInSummary |}.
Definition fencedBacktickReply : string :=
  fence ++ "json" ++ (nl ++ backtickJson ++ nl) ++ fence ++ "".

(** [JSON.parse] on the texts above as well. *)
Definition parseMore (text : string) : Res value :=
  if String.eqb text nullTipText then Ok nullTipReply
  else if String.eqb text backtickJson then Ok backtickValue
  else parseKnown text.

Definition nullTipWorld : World (list (Res string)) :=
  startWorld [trialOk; Ok nullTipText] ∅.

(** The primary tier answers, with a fenced reply. *)
Definition fencedOnPrimary : World (list (Res string)) :=
  startWorld [trialOk; Ok fencedReply] ∅.

Definition quotaThenBackticks : World (list (Res string)) :=
  startWorld [Throw "[429 Too Many Requests] quota exceeded"; Ok fencedBacktickReply] ∅.

End Examples.

(** ** src/middleware/upload.js *)
Module UploadMiddleware.








End UploadMiddleware.

(** ** src/controllers/resumeController.js: reading and deleting

    [castObjectId] is Mongoose's cast of the [:id] parameter to an
    [ObjectId]; a throw is its [CastError]. *)
Section Lookups.
Context {B : Type}.
Variable castObjectId : string -> Res nat.

(** [req.params.id] and [req.user._id] *)
Record IdRequest : Type := { params_id : string; requester : nat }.

(** [res.status(code).json({ success, message, error, data })], each of
    the last three possibly left out. *)
Record Reply : Type := {
  replyCode : nat;
  replySuccess : bool;
  replyMessage : option string;
  replyError : option string;
  replyData : option ResumeDoc
}.

(** [Resume.findById(id)] *)
Definition Resume_findById (id : string) : M B (option (nat * ResumeDoc)) :=
  fun w =>
    match castObjectId id with
    | Throw e => (Throw e, w)
    | Ok i => (Ok (option_map (pair i) (db w !! i)), w)
    end.

(** [resume.deleteOne()] *)
Definition resume_deleteOne (id : nat) : M B unit :=
  fun w => (Ok tt, with_db (delete id (db w)) w).

Definition notFound : Reply :=
  {| replyCode := 404; replySuccess := false;
     replyMessage := Some "Resume not found";
     replyError := None; replyData := None |}.

Definition refused (what : string) : Reply :=
  {| replyCode := 403; replySuccess := false;
     replyMessage := Some what; replyError := None; replyData := None |}.

Definition failedWith (what error : string) : Reply :=
  {| replyCode := 500; replySuccess := false;
     replyMessage := Some what; replyError := Some error; replyData := None |}.

Definition getResumeById (req : IdRequest) : M B Reply :=
  try_catch
    (resume <- Resume_findById (params_id req) ;;
     match resume with
     | None => ret notFound
     | Some (_, doc) =>
         if negb (user doc =? requester req)%nat
         then ret (refused "Not authorized to access this resume")
         else ret {| replyCode := 200; replySuccess := true;
                     replyMessage := None; replyError := None;
                     replyData := Some doc |}
     end)
    (fun error => ret (failedWith "Error fetching resume" error)).

Definition deleteResume (req : IdRequest) : M B Reply :=
  try_catch
    (resume <- Resume_findById (params_id req) ;;
     match resume with
     | None => ret notFound
     | Some (id, doc) =>
         if negb (user doc =? requester req)%nat
         then ret (refused "Not authorized to delete this resume")
         else
           resume_deleteOne id ;;;
           ret {| replyCode := 200; replySuccess := true;
                  replyMessage := Some "Resume deleted successfully";
                  replyError := None; replyData := None |}
     end)
    (fun error => ret (failedWith "Error deleting resume" error)).

End Lookups.

(** ** Statements of the further properties *)
Module MoreStated.
Import Analyzer UploadStated.



(** Every whitespace code unit of [s] is a single space between two
    other code units, or the first one of [s] when [afterSpace] is false. *)
Fixpoint tidy (afterSpace : bool) (s : string) : bool :=
  match s with
  | EmptyString => true
  | String c s' =>
      if isWhitespace c
      then negb afterSpace && Ascii.eqb c " "%char && tidy true s'
      else tidy false s'
  end.

(** The completion of [parseResume] as a function of the upload directory. *)
Definition parseOutcome (filePath : string) (fs : gmap string File) : Res string :=
  let ext := toLowerCase (extname filePath) in
  let extracted (prefix : string) (text : File -> Res string) : Res string :=
    match fs !! filePath with
    | Some f =>
        match text f with
        | Ok raw => Ok raw
        | Throw e => Throw (prefix ++ e)
        end
    | None =>
        Throw (prefix ++ "ENOENT: no such file or directory, open '" ++ filePath ++ "'")
    end in
  res_bind
    (if String.eqb ext ".pdf" then extracted "PDF parsing failed: " pdfText
     else if String.eqb ext ".docx" then extracted "DOCX parsing failed: " docxText
     else Throw FileParser.unsupportedFormat)
    (fun raw =>
       if String.eqb (cleaned raw) "" || (String.length (cleaned raw) <? 50)%nat
       then Throw FileParser.textTooShort
       else Ok (cleaned raw)).

Definition invalidKey : string :=
  "Invalid or missing Gemini API key. Check your .env file.".
Definition quotaExceeded : string :=
  "Gemini API quota exceeded. Please try again later.".

(** The upload directory once [path] has been unlinked, if the file
    system allows. *)
Definition afterUnlink (path : string) (fs : gmap string File) : gmap string File :=
  match fs !! path with
  | Some f => if undeletable f then fs else delete path fs
  | None => fs
  end.

(** A listing as [matchJobsWithResume] rates it when there is nothing
    to compare it with. *)
Definition neutral (j : JobService.Job) : JobService.ScoredJob :=
  {| JobService.job := j; JobService.matchScore := JobService.RInt 50;
     JobService.matchedSkills := []; JobService.missingSkills := [] |}.

End MoreStated.

(** ** More example data *)
Module Samples.
Import Analyzer Examples.

(** The backend answers the trial call, then with an empty object. *)
Definition ratedWorld : World (list (Res string)) :=
  startWorld [trialOk; Ok "{}"] {[ uploadPath := resumePdf ]}.

(** The [required: true] of [originalFileName], [filePath] and
    [extractedText] in [ResumeSchema]; everything else about a document
    is taken to pass. *)
Definition requiredStrings (d : ResumeDoc) : Res unit :=
  if String.eqb (originalFileName d) ""
  then Throw "Resume validation failed: originalFileName: Path `originalFileName` is required."
  else if String.eqb (filePath d) ""
  then Throw "Resume validation failed: filePath: Path `filePath` is required."
  else if String.eqb (extractedText d) ""
  then Throw "Resume validation failed: extractedText: Path `extractedText` is required."
  else Ok tt.

Definition unnamed : Upload := {| originalname := ""; path := uploadPath |}.
Definition unnamedRequest : Request :=
  {| file := Some unnamed; body_jobDescription := None; user_id := 7 |}.


(** The casting of the one id the examples use: that of the first
    record of an empty store. *)
Definition firstId : string := "000000000000000000000000".
Definition castFirstId (id : string) : Res nat :=
  if String.eqb id firstId then Ok (fresh (dom (∅ : gmap nat ResumeDoc)))
  else Throw "Cast to ObjectId failed".

Definition noKeywords : JobService.Resume := {| JobService.foundKeywords := None |}.

Definition reactOnly : JobService.UserSkills :=
  JobService.extractSkills (skillsOf ["React"] []).
Definition cobolOnly : JobService.UserSkills :=
  JobService.extractSkills (skillsOf ["COBOL"] []).

End Samples.

(* ===================================================================== *)
(** * Part II: properties                                                *)
(* ===================================================================== *)

(** ** Strings *)
Module JsStringFacts.

Lemma append_cons (c : ascii) (a b : string) :
  String c a ++ b = String c (a ++ b).
Proof. reflexivity. Qed.

Lemma append_nil (b : string) : "" ++ b = b.
Proof. reflexivity. Qed.

Lemma length_append (a b : string) :
  String.length (a ++ b) = (String.length a + String.length b)%nat.
Proof.
  induction a as [|c a IH]; [reflexivity|].
  rewrite append_cons. simpl. now rewrite IH.
Qed.

Lemma append_empty_r (a : string) : a ++ "" = a.
Proof.
  induction a as [|c a IH]; [reflexivity|]. rewrite append_cons. now rewrite IH.
Qed.

Lemma append_assoc (a b c : string) : (a ++ b) ++ c = a ++ (b ++ c).
Proof.
  induction a as [|x a IH]; [reflexivity|]. rewrite !append_cons. now rewrite IH.
Qed.

Lemma append_inv_head (a b c : string) : a ++ b = a ++ c -> b = c.
Proof.
  induction a as [|x a IH]; intros H; [exact H|].
  rewrite !append_cons in H. injection H as H. now apply IH.
Qed.

Lemma whitespace_not_backtick (c : ascii) :
  isWhitespace c = true -> c <> backtick.
Proof. intros H ->. discriminate H. Qed.

Lemma trimStart_idempotent (s : string) : trimStart (trimStart s) = trimStart s.
Proof.
  induction s as [|c s IH]; simpl; [reflexivity|].
  destruct (isWhitespace c) eqn:E; [exact IH|]. simpl. now rewrite E.
Qed.

Lemma trim_trimStart (s : string) : trim (trimStart s) = trim s.
Proof. unfold trim. now rewrite trimStart_idempotent. Qed.

End JsStringFacts.

(** ** The tolerant decoder of [analyzeResume] *)
Module AnalyzerFacts.
Import Js Analyzer JsStringFacts Stated.

Lemma lookup_set_field (k : string) (v : value) (fields : list (string * value)) :
  lookup_field k (set_field k v fields) = v.
Proof.
  induction fields as [|[k' v'] rest IH]; simpl.
  - now rewrite String.eqb_refl.
  - destruct (String.eqb k k') eqn:E; simpl.
    + now rewrite String.eqb_refl.
    + rewrite E. exact IH.
Qed.

(** Reading any property of a value that is neither [null] nor
    [undefined] succeeds, and gives what [?.] gives. *)
Lemma get_defined (v : value) (k : string) :
  nullish v = false -> get v k = Ok (get_opt v k).
Proof. destruct v; simpl; intros H; try discriminate H; reflexivity. Qed.

Lemma get_ok_inv (v : value) (k : string) (x : value) :
  get v k = Ok x -> nullish v = false /\ x = get_opt v k.
Proof. destruct v; simpl; intros H; inversion H; auto. Qed.

Lemma includes_value_iff (c : value) :
  includes_value validCategories c = true <-> In c (map VStr validCategories).
Proof.
  split.
  - destruct c; simpl; try discriminate. intros H.
    repeat match type of H with
           | (String.eqb ?a ?b || _) = true =>
               destruct (String.eqb_spec a b) as [E|_];
               [rewrite E; simpl; auto 10|]; simpl in H
           end.
    discriminate H.
  - simpl. intros [H|[H|[H|[H|[H|[]]]]]]; subst c; reflexivity.
Qed.

Lemma normalizeTip_defined (tip : value) :
  nullish tip = false ->
  normalizeTip tip =
    Ok (VObj (set_field "category"
                (if includes_value validCategories (get_opt tip "category")
                 then get_opt tip "category" else VStr "content")
                (own_properties tip))).
Proof. intros H. unfold normalizeTip. now rewrite (get_defined _ _ H). Qed.

Lemma mapM_normalizeTip (items : list value) :
  Forall (fun tip => nullish tip = false) items ->
  exists tips, res_mapM normalizeTip items = Ok tips /\
               Forall2 (fun tip tip' => normalizeTip tip = Ok tip') items tips.
Proof.
  induction 1 as [|tip items Htip _ (tips & E & F)]; simpl.
  - exists []. split; [reflexivity | constructor].
  - rewrite (normalizeTip_defined _ Htip). simpl. rewrite E. simpl.
    eexists. split; [reflexivity|]. constructor; [|exact F].
    apply normalizeTip_defined, Htip.
Qed.

(** What [normalize] returns whenever it returns. *)
Lemma normalize_ok_inv (aiResponse : value) (a : AnalysisResult) :
  normalize aiResponse = Ok a ->
  matchScore a = or_else (get_opt aiResponse "matchScore") (VNum 0) /\
  missingKeywords a = keywordsOf (get_opt aiResponse "missingKeywords") /\
  foundKeywords a = keywordsOf (get_opt aiResponse "foundKeywords") /\
  mapTips (get_opt aiResponse "actionableTips") = Ok (actionableTips a) /\
  aiSummary a = or_else (get_opt aiResponse "summary") (VStr "").
Proof.
  unfold normalize. intros H.
  destruct (nullish aiResponse) eqn:N.
  - destruct aiResponse; try discriminate N; discriminate H.
  - rewrite !(get_defined _ _ N) in H. simpl in H.
    destruct (mapTips (get_opt aiResponse "actionableTips")) as [tips|e] eqn:T;
      simpl in H; [|discriminate H].
    inversion H; subst a; simpl. auto.
Qed.

Lemma promptJobBlock_not_empty (jd : string) :
  exists c rest, promptJobBlock jd = String c rest.
Proof. eexists. eexists. reflexivity. Qed.

(** The prompt of a request: the block is there exactly for a
    non-empty job description. *)
Lemma prompt_framing (resumeText : string) (jd : option string) :
  framing resumeText jd (buildAnalysisPrompt resumeText (defaultJobDescription jd)).
Proof.
  assert (Hblock : forall d, d <> "" ->
            buildAnalysisPrompt resumeText d =
              promptHeader resumeText ++ promptJobBlock d ++ promptFormat /\
            buildAnalysisPrompt resumeText d <> promptHeader resumeText ++ promptFormat).
  { intros d Hd. unfold buildAnalysisPrompt. apply String.eqb_neq in Hd. rewrite Hd.
    cbn [negb]. split; [apply append_assoc|].
    intros H. rewrite append_assoc in H. apply append_inv_head in H.
    destruct (promptJobBlock_not_empty d) as (c & rest & E). rewrite E in H.
    apply (f_equal String.length) in H. rewrite length_append in H.
    simpl in H. lia. }
  unfold framing. destruct jd as [d|]; cbn [defaultJobDescription].
  - destruct (String.eqb_spec d "") as [E|Hne].
    + rewrite E. split; [reflexivity|]. split; [congruence|].
      split; [auto | reflexivity].
    + destruct (Hblock d Hne) as [Hb Hd]. split; [|split].
      * intros [H|H]; congruence.
      * intros d' H _. injection H as <-. exact Hb.
      * split; [contradiction|]. intros [H|H]; congruence.
  - split; [reflexivity|]. split; [discriminate|]. split; [auto | reflexivity].
Qed.

(** A [null] among the tips stops the [map]: reading its category
    throws. ([undefined] is no element of a parsed array.) *)
Lemma mapM_null_tip (items : list value) :
  In VNull items -> ~ In VUndefined items ->
  res_mapM normalizeTip items =
  Throw "Cannot read properties of null (reading 'category')".
Proof.
  induction items as [|tip items IH]; intros Hin Hun; [destruct Hin|].
  cbn [res_mapM].
  destruct (nullish tip) eqn:N.
  - destruct tip; try discriminate N.
    + exfalso. apply Hun. now left.
    + reflexivity.
  - rewrite (normalizeTip_defined _ N). cbn [res_bind].
    rewrite IH; [reflexivity| |].
    + destruct Hin as [E|Hin]; [subst tip; discriminate N | exact Hin].
    + intros H. apply Hun. now right.
Qed.

Lemma normalize_null_tip (aiResponse : value) (items : list value) :
  nullish aiResponse = false ->
  get_opt aiResponse "actionableTips" = VArr items ->
  In VNull items -> ~ In VUndefined items ->
  normalize aiResponse = Throw "Cannot read properties of null (reading 'category')".
Proof.
  intros N Ht Hin Hun. unfold normalize. rewrite !(get_defined _ _ N).
  cbn [res_bind]. rewrite Ht. unfold mapTips, or_else. cbn [truthy].
  now rewrite (mapM_null_tip items Hin Hun).
Qed.

End AnalyzerFacts.

Module AnalyzerClaims.
Import Js Analyzer JsStringFacts AnalyzerFacts Stated.

Lemma keywordsOf_default (group : value) : bucketsDefault group (keywordsOf group).
Proof. unfold bucketsDefault, keywordsOf; simpl. repeat split; intros ->; reflexivity. Qed.

(** Whenever the decoder returns, each of the six keyword buckets is
    the empty sequence when its field is absent; [matchScore] is 0 when
    the field is absent or holds a falsy value, and the field's value
    when that is truthy; the summary is the empty string when the field
    is absent. *)
Lemma normalize_defaults (aiResponse : value) (a : AnalysisResult) :
  normalize aiResponse = Ok a -> defaultsHold aiResponse a.
Proof.
  intros H. apply normalize_ok_inv in H as (Hs & Hm & Hf & _ & Hsum).
  unfold defaultsHold. rewrite Hs, Hm, Hf, Hsum.
  split; [apply keywordsOf_default|]. split; [apply keywordsOf_default|].
  unfold or_else. repeat split.
  - intros ->. reflexivity.
  - intros ->. reflexivity.
  - intros ->. reflexivity.
  - intros ->. reflexivity.
Qed.

Lemma normalize_defaults_witness :
  normalize Examples.replyWithSummaryOnly = Ok Examples.resultWithSummaryOnly /\
  defaultsHold Examples.replyWithSummaryOnly Examples.resultWithSummaryOnly.
Proof.
  split; [reflexivity|].
  apply (normalize_defaults Examples.replyWithSummaryOnly Examples.resultWithSummaryOnly).
  reflexivity.
Defined.

(** C4, where the code departs from it: [matchScore || 0] replaces
    falsy values only. A [matchScore] field that holds a truthy value
    that is not a number (a word, an array, an object, [true]) is
    returned as it is: the decoded score is then neither 0 nor any
    number. *)
Theorem non_numeric_score_kept (aiResponse : value) (a : AnalysisResult) :
  normalize aiResponse = Ok a ->
  truthy (get_opt aiResponse "matchScore") = true ->
  ~ isNumber (get_opt aiResponse "matchScore") ->
  matchScore a = get_opt aiResponse "matchScore" /\
  matchScore a <> VNum 0 /\
  ~ isNumber (matchScore a).
Proof.
  intros H Ht Hn. apply normalize_ok_inv in H as (Hs & _).
  unfold or_else in Hs. rewrite Ht in Hs. rewrite Hs.
  split; [reflexivity|]. split; [|exact Hn].
  intros E. apply Hn. exists 0%Z. exact E.
Qed.

Lemma non_numeric_score_kept_witness :
  normalize Examples.replyWithWordScore = Ok Examples.resultWithWordScore /\
  matchScore Examples.resultWithWordScore = VStr "high" /\
  matchScore Examples.resultWithWordScore <> VNum 0 /\
  ~ isNumber (matchScore Examples.resultWithWordScore).
Proof.
  split; [reflexivity|].
  apply (non_numeric_score_kept Examples.replyWithWordScore Examples.resultWithWordScore).
  - reflexivity.
  - reflexivity.
  - intros [n Hn]. discriminate Hn.
Defined.

Lemma coerced_of_normalizeTip (tip tip' : value) :
  nullish tip = false -> normalizeTip tip = Ok tip' -> categoryCoerced tip tip'.
Proof.
  intros N H. rewrite (normalizeTip_defined _ N) in H. inversion H; subst tip'.
  eexists. split; [reflexivity|]. rewrite lookup_set_field.
  unfold validCategory. rewrite <- includes_value_iff.
  destruct (includes_value validCategories (get_opt tip "category")); split;
    congruence.
Qed.

(** X25: when no element of the reply's [actionableTips] is [null],
    the decoding succeeds whatever the categories are (absent, of
    another type, any string), and tip by tip the decoded category is
    the tip's own when it is one of the five valid values, and [content]
    when it is anything else. *)
Lemma tip_categories_coerced (aiResponse : value) (items : list value) :
  nullish aiResponse = false ->
  get_opt aiResponse "actionableTips" = VArr items ->
  Forall (fun tip => nullish tip = false) items ->
  exists a, normalize aiResponse = Ok a /\
            Forall2 categoryCoerced items (actionableTips a).
Proof.
  intros N Ht Hitems.
  destruct (mapM_normalizeTip items Hitems) as (tips & E & F).
  unfold normalize. rewrite !(get_defined _ _ N). simpl.
  rewrite Ht. unfold mapTips, or_else. simpl. rewrite E. simpl.
  eexists. split; [reflexivity|]. simpl.
  clear E Ht. induction F as [|tip tip' items tips Htip F IH]; constructor.
  - inversion Hitems; subst. now apply coerced_of_normalizeTip.
  - inversion Hitems; subst. now apply IH.
Qed.

Lemma tip_categories_coerced_witness :
  exists a, normalize Examples.replyWithOddTips = Ok a /\
            Forall2 categoryCoerced Examples.oddTips (actionableTips a).
Proof.
  apply (tip_categories_coerced Examples.replyWithOddTips Examples.oddTips).
  - reflexivity.
  - reflexivity.
  - repeat constructor.
Defined.

(** A [null] among the tips: reading its category throws, and the
    decoding with it. *)
Example null_among_tips_throws :
  normalize (VObj [("actionableTips", VArr [VNull])]) =
  Throw "Cannot read properties of null (reading 'category')".
Proof. reflexivity. Qed.

End AnalyzerClaims.

(** ** The regular expression of the fallback path *)
Module FenceFacts.
Import Analyzer JsStringFacts.

Lemma startsWith_cons (c d : ascii) (s p : string) :
  startsWith (String d s) (String c p) = Ascii.eqb c d && startsWith s p.
Proof. reflexivity. Qed.

Lemma prefix_fence_cons (c : ascii) (s : string) :
  c <> backtick -> startsWith (String c s) fence = false.
Proof.
  intros H. unfold fence. rewrite startsWith_cons.
  destruct (Ascii.eqb_spec backtick c) as [E|_]; [congruence | reflexivity].
Qed.

Lemma prefix_fence_append (s : string) : startsWith (fence ++ s) fence = true.
Proof.
  unfold fence. rewrite !append_cons, !startsWith_cons, !Ascii.eqb_refl.
  reflexivity.
Qed.

Lemma untilFence_cons (c : ascii) (s : string) :
  c <> backtick -> untilFence (String c s) = option_map (String c) (untilFence s).
Proof.
  intros H.
  change (untilFence (String c s))
    with (if startsWith (String c s) fence then Some ""
          else option_map (String c) (untilFence s)).
  now rewrite (prefix_fence_cons c s H).
Qed.

Lemma untilFence_unfold (s : string) :
  untilFence s =
  if startsWith s fence then Some ""
  else match s with
       | EmptyString => None
       | String c s' => option_map (String c) (untilFence s')
       end.
Proof. destruct s; reflexivity. Qed.

Lemma untilFence_at_fence (s : string) : untilFence (fence ++ s) = Some "".
Proof. now rewrite untilFence_unfold, prefix_fence_append. Qed.

(** [\s*] then the lazy group, on a body that runs up to the first fence. *)
Lemma afterSpaces_body (body rest : string) :
  untilFence (body ++ fence ++ rest) = Some body ->
  afterSpaces (body ++ fence ++ rest) = Some (trimStart body).
Proof.
  induction body as [|c body IH]; intros H.
  - rewrite append_nil. unfold fence at 1. rewrite append_cons.
    change (afterSpaces (String backtick ?x)) with (untilFence (String backtick x)).
    apply (untilFence_at_fence rest).
  - rewrite append_cons in *.
    change (afterSpaces (String c (body ++ fence ++ rest)))
      with (if isWhitespace c
            then match afterSpaces (body ++ fence ++ rest) with
                 | Some captured => Some captured
                 | None => untilFence (String c (body ++ fence ++ rest))
                 end
            else untilFence (String c (body ++ fence ++ rest))).
    change (trimStart (String c body))
      with (if isWhitespace c then trimStart body else String c body).
    destruct (isWhitespace c) eqn:W; [|exact H].
    rewrite (untilFence_cons c _ (whitespace_not_backtick c W)) in H.
    destruct (untilFence (body ++ fence ++ rest)) as [b|] eqn:U; [|discriminate H].
    simpl in H. injection H as ->. now rewrite IH.
Qed.

Lemma no_tag_in_front (body rest : string) :
  startsWith body "json" = false ->
  startsWith (body ++ fence ++ rest) "json" = false.
Proof.
  intros H.
  destruct body as [|c1 [|c2 [|c3 [|c4 body]]]];
    rewrite ?append_cons, ?append_nil; unfold fence;
    rewrite ?startsWith_cons in *;
    repeat match goal with
           | |- context [Ascii.eqb ?a ?b] =>
               destruct (Ascii.eqb a b) eqn:?; try reflexivity
           end;
    try discriminate; try exact H.
Qed.

(** A reply that opens with a fence, an optional [json] tag, and whose
    body runs up to the next fence: group 1 is the body without its
    leading whitespace. *)
Lemma matchFence_fenced (tag body rest : string) :
  tag = "json" \/ (tag = "" /\ startsWith body "json" = false) ->
  untilFence (body ++ fence ++ rest) = Some body ->
  matchFence (fence ++ tag ++ body ++ fence ++ rest) = Some (trimStart body).
Proof.
  intros Htag Hbody.
  assert (A : afterOpeningFence (tag ++ body ++ fence ++ rest) = Some (trimStart body)).
  { unfold afterOpeningFence. destruct Htag as [->|[-> Hno]].
    - change (startsWith ("json" ++ body ++ fence ++ rest) "json") with true.
      change (drop 4 ("json" ++ body ++ fence ++ rest)) with (body ++ fence ++ rest).
      now rewrite (afterSpaces_body body rest Hbody).
    - rewrite append_nil, (no_tag_in_front body rest Hno).
      apply afterSpaces_body, Hbody. }
  destruct (fence ++ tag ++ body ++ fence ++ rest) as [|c s] eqn:E;
    [discriminate E|].
  rewrite <- E. clear E c s.
  change (matchFence (fence ++ tag ++ body ++ fence ++ rest))
    with (match afterOpeningFence (tag ++ body ++ fence ++ rest) with
          | Some captured => Some captured
          | None => matchFence (drop 1 (fence ++ tag ++ body ++ fence ++ rest))
          end).
  now rewrite A.
Qed.

Lemma extractJson_fenced (tag body rest : string) :
  tag = "json" \/ (tag = "" /\ startsWith body "json" = false) ->
  untilFence (body ++ fence ++ rest) = Some body ->
  extractJson true (fence ++ tag ++ body ++ fence ++ rest) = trim body.
Proof.
  intros Htag Hbody. unfold extractJson.
  rewrite (matchFence_fenced tag body rest Htag Hbody). apply trim_trimStart.
Qed.

Lemma startsWith_fits (s p : string) :
  startsWith s p = true -> (String.length p <= String.length s)%nat.
Proof.
  revert s. induction p as [|c p IH]; intros s H; [cbn; lia|].
  destruct s as [|d s]; [discriminate H|].
  rewrite startsWith_cons in H. apply andb_true_iff in H as [_ H].
  apply IH in H. cbn [String.length]. lia.
Qed.

Lemma startsWith_split (s p : string) :
  startsWith s p = true -> exists r, s = p ++ r.
Proof.
  revert s. induction p as [|c p IH]; intros s H; [exists s; reflexivity|].
  destruct s as [|d s]; [discriminate H|].
  rewrite startsWith_cons in H. apply andb_true_iff in H as [E H].
  apply Ascii.eqb_eq in E. subst d. destruct (IH s H) as [r Hr].
  exists r. now rewrite append_cons, <- Hr.
Qed.

(** What follows a string that is long enough does not change what
    the string starts with. *)
Lemma startsWith_more (s x p : string) :
  (String.length p <= String.length s)%nat ->
  startsWith (s ++ x) p = startsWith s p.
Proof.
  revert s. induction p as [|c p IH]; intros s H; [reflexivity|].
  destruct s as [|d s]; [cbn in H; lia|].
  rewrite append_cons, !startsWith_cons. rewrite IH; [reflexivity|].
  cbn [String.length] in H. lia.
Qed.

Lemma untilFence_fits (s cut : string) :
  untilFence s = Some cut -> (3 <= String.length s)%nat.
Proof.
  revert cut. induction s as [|c s IH]; intros cut H; rewrite untilFence_unfold in H.
  - discriminate H.
  - destruct (startsWith (String c s) fence) eqn:E.
    + apply startsWith_fits in E. exact E.
    + destruct (untilFence s) as [b|]; [|discriminate H].
      specialize (IH b eq_refl). cbn [String.length]. lia.
Qed.

(** The lazy group stops at the first fence, whatever follows it. *)
Lemma untilFence_more (s x cut : string) :
  untilFence s = Some cut -> untilFence (s ++ x) = Some cut.
Proof.
  revert cut. induction s as [|c s IH]; intros cut H.
  - discriminate H.
  - pose proof (untilFence_fits _ _ H) as L.
    rewrite untilFence_unfold in H. rewrite untilFence_unfold.
    rewrite (startsWith_more (String c s) x fence L).
    destruct (startsWith (String c s) fence); [exact H|].
    rewrite append_cons.
    destruct (untilFence s) as [b|]; [|discriminate H].
    now rewrite (IH b eq_refl).
Qed.

Lemma untilFence_split (s cut : string) :
  untilFence s = Some cut -> exists r, s = cut ++ fence ++ r.
Proof.
  revert cut. induction s as [|c s IH]; intros cut H; rewrite untilFence_unfold in H.
  - discriminate H.
  - destruct (startsWith (String c s) fence) eqn:E.
    + injection H as <-. apply startsWith_split in E. exact E.
    + destruct (untilFence s) as [b|] eqn:U; [|discriminate H].
      injection H as <-. destruct (IH b eq_refl) as [r Hr].
      exists r. now rewrite append_cons, <- Hr.
Qed.

Lemma no_tag_before (cut x : string) :
  startsWith (cut ++ x) "json" = false -> startsWith cut "json" = false.
Proof.
  intros H. destruct (startsWith cut "json") eqn:E; [|reflexivity].
  rewrite (startsWith_more cut x "json" (startsWith_fits _ _ E)) in H. congruence.
Qed.

(** A fenced reply whose body holds a fence of its own: group 1 ends
    at that fence, not at the closing one. *)
Lemma extractJson_inner_fence (tag body cut rest : string) :
  tag = "json" \/ (tag = "" /\ startsWith body "json" = false) ->
  untilFence body = Some cut ->
  extractJson true (fence ++ tag ++ body ++ fence ++ rest) = trim cut.
Proof.
  intros Htag Hcut.
  destruct (untilFence_split _ _ Hcut) as [r Hr].
  pose proof (untilFence_more body (fence ++ rest) cut Hcut) as Hmore.
  rewrite Hr in Hmore |- *. rewrite !append_assoc in Hmore |- *.
  apply extractJson_fenced; [|exact Hmore].
  destruct Htag as [E|[E Hno]]; [now left | right].
  split; [exact E|]. rewrite Hr in Hno. now apply no_tag_before in Hno.
Qed.

End FenceFacts.

(** ** [analyzeResume] *)
Module AnalyzeFacts.
Import Js Analyzer Outcome JsStringFacts Stated AnalyzerFacts FenceFacts.

Section WithCollaborators.
Context {B : Type}.
Variable invoke : Tier -> string -> B -> Res string * B.
Variable JSON_parse : string -> Res value.

Local Abbreviation analyze := (analyzeResume invoke JSON_parse).

Lemma keeps_ret {A} (a : A) : keepsStore (ret (B:=B) a).
Proof. intros w. simpl. auto. Qed.

Lemma keeps_throw {A} (e : string) : keepsStore (throw (B:=B) (A:=A) e).
Proof. intros w. simpl. auto. Qed.

Lemma keeps_lift {A} (r : Res A) : keepsStore (lift (B:=B) r).
Proof. intros w. simpl. auto. Qed.

Lemma keeps_console (l : Level) (args : list LogArg) :
  keepsStore (console_out (B:=B) l args).
Proof. intros w. simpl. auto. Qed.

Lemma keeps_generateContent (model : Tier) (prompt : string) :
  keepsStore (generateContent invoke model prompt).
Proof.
  intros w. unfold generateContent.
  destruct (invoke model prompt (backend w)); simpl. auto.
Qed.

Lemma keeps_bind {A C} (m : M B A) (k : A -> M B C) :
  keepsStore m -> (forall a, keepsStore (k a)) -> keepsStore (bind m k).
Proof.
  intros Hm Hk w. unfold bind. specialize (Hm w).
  destruct (m w) as [[a|e] w1]; simpl in *; [|exact Hm].
  destruct (Hk a w1) as (F & D & R). destruct Hm as (F1 & D1 & R1).
  repeat split; congruence.
Qed.

Lemma keeps_try_catch {A} (m : M B A) (h : string -> M B A) :
  keepsStore m -> (forall e, keepsStore (h e)) -> keepsStore (try_catch m h).
Proof.
  intros Hm Hh w. unfold try_catch. specialize (Hm w).
  destruct (m w) as [[a|e] w1]; simpl in *; [exact Hm|].
  destruct (Hh e w1) as (F & D & R). destruct Hm as (F1 & D1 & R1).
  repeat split; congruence.
Qed.

Create HintDb keeps.
#[local] Hint Resolve keeps_ret keeps_throw keeps_lift keeps_console
  keeps_generateContent : keeps.

Lemma keeps_chooseModel : keepsStore (chooseModel invoke).
Proof.
  unfold chooseModel. apply keeps_try_catch.
  - apply keeps_bind; auto with keeps.
  - intros e. destruct (isQuotaSignal e); [apply keeps_bind|]; auto with keeps.
Qed.

(** The analysis stage touches neither files nor records. *)
Lemma keeps_analyzeResume (resumeText : string) (jd : option string) :
  keepsStore (analyze resumeText jd).
Proof.
  unfold analyzeResume. apply keeps_try_catch.
  - apply keeps_bind; [apply keeps_chooseModel|]. intros model.
    apply keeps_bind; [auto with keeps|]. intros text.
    apply keeps_bind; [|auto with keeps].
    apply keeps_try_catch; [auto with keeps|]. intros e.
    apply keeps_bind; auto with keeps.
  - intros e. repeat (apply keeps_bind; [auto with keeps|]; intros _).
    auto with keeps.
Qed.

(** The completion of a call is [analysisOutcome] of the backend. *)
Lemma analyzeResume_outcome (resumeText : string) (jd : option string) (w : World B) :
  fst (analyze resumeText jd w) = analysisOutcome invoke JSON_parse resumeText jd (backend w).
Proof.
  unfold analyzeResume, analysisOutcome, chooseModel, generateContent, decoded.
  cbv [try_catch bind ret throw lift console_out].
  destruct (invoke Primary testPrompt (backend w)) as [[t|m] b1]; simpl.
  - destruct (invoke Primary _ b1) as [[reply|e] b2]; simpl; [|reflexivity].
    destruct (JSON_parse reply) as [v|e]; simpl; [|reflexivity].
    destruct (normalize v); reflexivity.
  - destruct (isQuotaSignal m); simpl; [|reflexivity].
    destruct (invoke Fallback _ b1) as [[reply|e] b2]; simpl; [|reflexivity].
    destruct (JSON_parse _) as [v|e]; simpl; [|reflexivity].
    destruct (normalize v); reflexivity.
Qed.

(** C2: every call of [analyzeResume], in whatever state earlier calls
    left the backend, first sends the trial prompt to the primary tier;
    the real request goes to the fallback tier exactly when that trial
    fails with a message containing [429] or [quota], and to the primary
    tier when the trial succeeds; any other trial failure ends the call
    with that error (classified), and no further request is sent. *)
Theorem model_selection (resumeText : string) (jd : option string) (w : World B) :
  let prompt := buildAnalysisPrompt resumeText (defaultJobDescription jd) in
  let trial := fst (invoke Primary testPrompt (backend w)) in
  let r := fst (analyze resumeText jd w) in
  let sent := calls (snd (analyze resumeText jd w)) in
  match trial with
  | Ok _ => sent = (calls w ++ [(Primary, testPrompt); (Primary, prompt)])%list
  | Throw m =>
      if includes m "429" || includes m "quota"
      then sent = (calls w ++ [(Primary, testPrompt); (Fallback, prompt)])%list
      else sent = (calls w ++ [(Primary, testPrompt)])%list /\
           r = Throw (classifyError m)
  end.
Proof.
  unfold analyzeResume, chooseModel, generateContent.
  cbv [try_catch bind ret throw lift console_out].
  destruct (invoke Primary testPrompt (backend w)) as [[t|m] b1]; simpl.
  - destruct (invoke Primary _ b1) as [[reply|e] b2]; simpl;
      [destruct (JSON_parse reply) as [v|e]; simpl; [destruct (normalize v)|]|];
      simpl; now rewrite <- app_assoc.
  - change (includes m "429" || includes m "quota") with (isQuotaSignal m).
    destruct (isQuotaSignal m); simpl; [|auto].
    destruct (invoke Fallback _ b1) as [[reply|e] b2]; simpl;
      [destruct (JSON_parse _) as [v|e]; simpl; [destruct (normalize v)|]|];
      simpl; now rewrite <- app_assoc.
Qed.

(** X27: on the primary path the reply goes to [JSON.parse] as
    received, fenced or not: the result of the call is what parsing and
    decoding the raw reply give, errors classified. *)
Lemma primary_reply_parsed_as_received
    (resumeText : string) (jd : option string) (w : World B)
    (t reply : string) (b1 b2 : B) :
  invoke Primary testPrompt (backend w) = (Ok t, b1) ->
  invoke Primary (buildAnalysisPrompt resumeText (defaultJobDescription jd)) b1
    = (Ok reply, b2) ->
  fst (analyze resumeText jd w) = classified (decoded JSON_parse reply).
Proof.
  intros H1 H2. rewrite analyzeResume_outcome. unfold analysisOutcome.
  rewrite H1, H2. reflexivity.
Qed.

(** On the fallback path what goes to [JSON.parse] is what the fence
    expression leaves of the reply. *)
Lemma fallback_reply_extracted
    (resumeText : string) (jd : option string) (w : World B)
    (m reply : string) (b1 b2 : B) :
  invoke Primary testPrompt (backend w) = (Throw m, b1) ->
  isQuotaSignal m = true ->
  invoke Fallback (buildAnalysisPrompt resumeText (defaultJobDescription jd)) b1
    = (Ok reply, b2) ->
  fst (analyze resumeText jd w) =
    classified (decoded JSON_parse (extractJson true reply)).
Proof.
  intros H1 Hq H2. rewrite analyzeResume_outcome. unfold analysisOutcome.
  rewrite H1, Hq, H2. reflexivity.
Qed.

(** X26: a fallback reply that is a body between triple backticks
    (with or without the [json] tag), the body running up to the first
    fence after the opening one: what is parsed is the body, trimmed, so
    a body that is JSON the decoder accepts gives its decoded result. *)
Lemma fallback_fenced_reply_decoded
    (resumeText : string) (jd : option string) (w : World B)
    (m tag body rest : string) (b1 b2 : B) (v : value) (a : AnalysisResult) :
  invoke Primary testPrompt (backend w) = (Throw m, b1) ->
  isQuotaSignal m = true ->
  invoke Fallback (buildAnalysisPrompt resumeText (defaultJobDescription jd)) b1
    = (Ok (fence ++ tag ++ body ++ fence ++ rest), b2) ->
  tag = "json" \/ (tag = "" /\ startsWith body "json" = false) ->
  untilFence (body ++ fence ++ rest) = Some body ->
  JSON_parse (trim body) = Ok v ->
  normalize v = Ok a ->
  fst (analyze resumeText jd w) = Ok a.
Proof.
  intros Htrial Hq Hreply Htag Hbody Hparse Hnorm.
  rewrite (fallback_reply_extracted _ _ _ _ _ _ _ Htrial Hq Hreply).
  rewrite (FenceFacts.extractJson_fenced tag body rest Htag Hbody).
  unfold decoded. rewrite Hparse, Hnorm. reflexivity.
Qed.

(** C7, where the code departs from it: the callback reads
    [tip.category] of every element of [actionableTips], and on an
    element that is [null] that read throws: the [map] stops, the
    decoder throws, and the whole analysis fails with the [TypeError]
    behind the prefix of [analyzeResume], whatever the other tips are. *)
Theorem null_tip_fails_the_analysis
    (resumeText : string) (jd : option string) (w : World B)
    (t reply : string) (b1 b2 : B) (aiResponse : value) (items : list value) :
  invoke Primary testPrompt (backend w) = (Ok t, b1) ->
  invoke Primary (buildAnalysisPrompt resumeText (defaultJobDescription jd)) b1
    = (Ok reply, b2) ->
  JSON_parse reply = Ok aiResponse ->
  nullish aiResponse = false ->
  get_opt aiResponse "actionableTips" = VArr items ->
  In VNull items ->
  ~ In VUndefined items ->
  normalize aiResponse = Throw "Cannot read properties of null (reading 'category')" /\
  fst (analyze resumeText jd w) =
    Throw "AI analysis failed: Cannot read properties of null (reading 'category')".
Proof.
  intros H1 H2 Hparse N Ht Hin Hun.
  pose proof (normalize_null_tip aiResponse items N Ht Hin Hun) as Hnorm.
  split; [exact Hnorm|].
  rewrite analyzeResume_outcome. unfold analysisOutcome.
  rewrite H1, H2. cbn [fst res_bind].
  unfold decoded. rewrite Hparse, Hnorm. reflexivity.
Qed.

(** C8, where the code departs from it: the fence expression is used on
    the fallback path only, and its lazy group ends at the first triple
    backtick after the opening fence. When the JSON between the fences
    holds a triple backtick of its own, inside a string, what is handed
    to [JSON.parse] is the text before that backtick, trimmed, not the
    JSON: although the text between the fences is valid JSON and decodes
    to a result, the call fails with the invalid-JSON error. *)
Theorem fenced_json_cut_at_inner_fence
    (resumeText : string) (jd : option string) (w : World B)
    (m tag json cut rest pe : string) (b1 b2 : B) (v : value) (a : AnalysisResult) :
  invoke Primary testPrompt (backend w) = (Throw m, b1) ->
  isQuotaSignal m = true ->
  invoke Fallback (buildAnalysisPrompt resumeText (defaultJobDescription jd)) b1
    = (Ok (fence ++ tag ++ json ++ fence ++ rest), b2) ->
  tag = "json" \/ (tag = "" /\ startsWith json "json" = false) ->
  JSON_parse (trim json) = Ok v ->
  normalize v = Ok a ->
  untilFence json = Some cut ->
  JSON_parse (trim cut) = Throw pe ->
  decoded JSON_parse (trim json) = Ok a /\
  extractJson true (fence ++ tag ++ json ++ fence ++ rest) = trim cut /\
  fst (analyze resumeText jd w) =
    Throw "AI analysis failed: AI returned invalid JSON response".
Proof.
  intros Htrial Hq Hreply Htag Hparse Hnorm Hcut Hbad.
  split; [unfold decoded; now rewrite Hparse|].
  pose proof (extractJson_inner_fence tag json cut rest Htag Hcut) as Hx.
  split; [exact Hx|].
  rewrite (fallback_reply_extracted _ _ _ _ _ _ _ Htrial Hq Hreply), Hx.
  unfold decoded. rewrite Hbad. reflexivity.
Qed.

(** C10: a request with the empty string as job description is the
    same request as one with the job description left out; and the
    prompt a request sends to the backend, on either tier, carries the
    job-description block exactly when the job description is a
    non-empty string, the general framing otherwise. *)
Theorem empty_job_description_is_none
    (resumeText : string) (jd : option string) (w : World B) :
  let sent := calls (snd (analyze resumeText jd w)) in
  analyze resumeText (Some "") w = analyze resumeText None w /\
  exists prompt,
    framing resumeText jd prompt /\
    match fst (invoke Primary testPrompt (backend w)) with
    | Ok _ => sent = (calls w ++ [(Primary, testPrompt); (Primary, prompt)])%list
    | Throw m =>
        if isQuotaSignal m
        then sent = (calls w ++ [(Primary, testPrompt); (Fallback, prompt)])%list
        else sent = (calls w ++ [(Primary, testPrompt)])%list
    end.
Proof.
  intros sent. split; [reflexivity|].
  exists (buildAnalysisPrompt resumeText (defaultJobDescription jd)).
  split; [apply prompt_framing|].
  subst sent. unfold analyzeResume, chooseModel, generateContent.
  cbv [try_catch bind ret throw lift console_out].
  destruct (invoke Primary testPrompt (backend w)) as [[t|m] b1]; simpl.
  - destruct (invoke Primary _ b1) as [[reply|e] b2]; simpl;
      [destruct (JSON_parse reply) as [v|e]; simpl; [destruct (normalize v)|]|];
      simpl; now rewrite <- app_assoc.
  - destruct (isQuotaSignal m); simpl; [|reflexivity].
    destruct (invoke Fallback _ b1) as [[reply|e] b2]; simpl;
      [destruct (JSON_parse _) as [v|e]; simpl; [destruct (normalize v)|]|];
      simpl; now rewrite <- app_assoc.
Qed.

(** At the call too, leaving the job description out and passing the
    empty string are the same request. *)
Lemma analyzeResume_empty_job_description (resumeText : string) :
  analyze resumeText (Some "") = analyze resumeText None.
Proof. reflexivity. Qed.

End WithCollaborators.

Lemma primary_reply_parsed_as_received_witness :
  fst (analyzeResume Examples.scripted Examples.parseKnown "Ten years of Rocq." None
         Examples.fencedOnPrimary) =
    Throw "AI analysis failed: AI returned invalid JSON response".
Proof.
  apply (primary_reply_parsed_as_received Examples.scripted Examples.parseKnown
           "Ten years of Rocq." None Examples.fencedOnPrimary
           ("{" ++ q "test" ++ ":true}") Examples.fencedReply
           [Ok Examples.fencedReply] []).
  - reflexivity.
  - reflexivity.
Defined.

Lemma fallback_fenced_reply_decoded_witness :
  fst (analyzeResume Examples.scripted Examples.parseKnown "Ten years of Rocq." None
         Examples.quotaThenFenced) = Ok Examples.emptyResult.
Proof.
  apply (fallback_fenced_reply_decoded Examples.scripted Examples.parseKnown
           "Ten years of Rocq." None Examples.quotaThenFenced
           "[429 Too Many Requests] quota exceeded" "json" (nl ++ "{}" ++ nl) ""
           [Ok Examples.fencedReply] [] (VObj []) Examples.emptyResult).
  - reflexivity.
  - reflexivity.
  - reflexivity.
  - left. reflexivity.
  - reflexivity.
  - reflexivity.
  - reflexivity.
Defined.

Lemma null_tip_fails_the_analysis_witness :
  normalize Examples.nullTipReply =
    Throw "Cannot read properties of null (reading 'category')" /\
  fst (analyzeResume Examples.scripted Examples.parseMore
         (UploadStated.cleaned Examples.resumeRaw) None Examples.nullTipWorld) =
    Throw "AI analysis failed: Cannot read properties of null (reading 'category')".
Proof.
  apply (null_tip_fails_the_analysis Examples.scripted Examples.parseMore
           (UploadStated.cleaned Examples.resumeRaw) None Examples.nullTipWorld
           ("{" ++ q "test" ++ ":true}") Examples.nullTipText
           [Ok Examples.nullTipText] [] Examples.nullTipReply
           [VObj [("category", VStr "impact")]; VNull]).
  - reflexivity.
  - reflexivity.
  - reflexivity.
  - reflexivity.
  - reflexivity.
  - right. left. reflexivity.
  - intros [H|[H|[]]]; discriminate H.
Defined.

Lemma fenced_json_cut_at_inner_fence_witness :
  decoded Examples.parseMore (trim (nl ++ Examples.backtickJson ++ nl))
    = Ok Examples.backtickResult /\
  extractJson true Examples.fencedBacktickReply
    = "{" ++ q "summary" ++ ":" ++ dquote ++ "Put code samples between" /\
  fst (analyzeResume Examples.scripted Examples.parseMore
         (UploadStated.cleaned Examples.resumeRaw) None Examples.quotaThenBackticks) =
    Throw "AI analysis failed: AI returned invalid JSON response".
Proof.
  apply (fenced_json_cut_at_inner_fence Examples.scripted Examples.parseMore
           (UploadStated.cleaned Examples.resumeRaw) None Examples.quotaThenBackticks
           "[429 Too Many Requests] quota exceeded" "json"
           (nl ++ Examples.backtickJson ++ nl)
           (nl ++ "{" ++ q "summary" ++ ":" ++ dquote ++ "Put code samples between ")
           "" "Unexpected token in JSON"
           [Ok Examples.fencedBacktickReply] [] Examples.backtickValue
           Examples.backtickResult).
  - reflexivity.
  - reflexivity.
  - reflexivity.
  - left. reflexivity.
  - reflexivity.
  - reflexivity.
  - reflexivity.
  - reflexivity.
Defined.

(** A request with a job description carries it to the backend. *)
Example job_description_is_sent :
  let w := analyzeResume Examples.scripted Examples.parseKnown "r" (Some "Rocq engineer")
             (Examples.startWorld [Examples.trialOk; Ok "{}"] ∅) in
  map snd (calls (snd w)) =
    [testPrompt; promptHeader "r" ++ promptJobBlock "Rocq engineer" ++ promptFormat].
Proof. vm_compute. reflexivity. Qed.

(** The choice is made again on every call: after a call that fell back,
    a call whose trial succeeds goes to the primary tier. *)
Example selection_not_cached :
  let w0 := Examples.startWorld
              [Throw "429"; Ok "{}"; Ok "ok"; Ok "{}"] ∅ in
  let w1 := snd (analyzeResume Examples.scripted Examples.parseKnown "r" None w0) in
  let w2 := snd (analyzeResume Examples.scripted Examples.parseKnown "r" None w1) in
  map fst (calls w1) = [Primary; Fallback] /\
  map fst (calls w2) = [Primary; Fallback; Primary; Primary].
Proof. split; reflexivity. Qed.

End AnalyzeFacts.

(** ** [parseResume] and [uploadResume] *)
Module UploadFacts.
Import Analyzer Outcome UploadStated AnalyzeFacts.

Section WithCollaborators.
Context {B : Type}.
Variable invoke : Tier -> string -> B -> Res string * B.
Variable JSON_parse : string -> Res value.
Variable validate : ResumeDoc -> Res unit.

Local Abbreviation analyze := (analyzeResume invoke JSON_parse).
Local Abbreviation upload := (uploadResume invoke JSON_parse validate).

(** [parseResume] on a supported file that the extractor can read. *)
Lemma parseResume_extracted (w : World B) (path : string) (f : File) (raw : string) :
  files w !! path = Some f ->
  extractsTo path f raw ->
  FileParser.parseResume path w =
    (if String.eqb (cleaned raw) "" || (String.length (cleaned raw) <? 50)%nat
     then Throw FileParser.textTooShort else Ok (cleaned raw), w).
Proof.
  intros Hf Hx. unfold FileParser.parseResume, FileParser.parsePDF, FileParser.parseDOCX.
  cbv [try_catch bind ret throw lift fs_readFile]. fold (cleaned raw).
  destruct Hx as [[-> Ht]|[-> Ht]]; cbn [String.eqb Ascii.eqb Bool.eqb];
    rewrite Hf, Ht; fold (cleaned raw);
    destruct (String.eqb (cleaned raw) "" || (String.length (cleaned raw) <? 50)%nat);
    reflexivity.
Qed.

(** Deleting the upload never throws; a refusal is a warning. *)
Lemma unlink_guarded (w : World B) (path text : string) :
  let m := try_catch (fs_unlink path)
             (fun unlinkError => console_out LWarn [AStr text; AStr unlinkError]) in
  fst (m w) = Ok tt /\
  db (snd (m w)) = db w /\
  resume_obj (snd (m w)) = resume_obj w /\
  match files w !! path with
  | Some f =>
      if undeletable f
      then files (snd (m w)) = files w /\
           exists e, console (snd (m w)) = (console w ++ [(LWarn, [AStr text; AStr e])])%list
      else files (snd (m w)) = delete path (files w) /\ console (snd (m w)) = console w
  | None =>
      files (snd (m w)) = files w /\
      exists e, console (snd (m w)) = (console w ++ [(LWarn, [AStr text; AStr e])])%list
  end.
Proof.
  cbv [try_catch fs_unlink console_out].
  destruct (files w !! path) as [f|] eqn:E; [destruct (undeletable f) eqn:U|];
    simpl; rewrite ?E, ?U; eauto 10.
Qed.

Lemma short_is_rejected (raw : string) :
  (String.length (cleaned raw) < 50)%nat ->
  String.eqb (cleaned raw) "" || (String.length (cleaned raw) <? 50)%nat = true.
Proof.
  intros H. apply orb_true_iff. right. now apply Nat.ltb_lt.
Qed.

(** C9: a supported file whose text, whitespace collapsed and trimmed,
    has fewer than 50 characters (none included) makes [parseResume]
    throw the too-short error; [uploadResume] answers 500 with that
    error and the record store is what it was: nothing was created. *)
Theorem short_text_creates_no_record
    (w : World B) (req : Request) (f : Upload) (content : File) (raw : string) :
  file req = Some f ->
  files w !! path f = Some content ->
  extractsTo (path f) content raw ->
  (String.length (cleaned raw) < 50)%nat ->
  FileParser.parseResume (path f) w = (Throw FileParser.textTooShort, w) /\
  fst (upload req w) = Ok (errorResponse FileParser.textTooShort) /\
  db (snd (upload req w)) = db w.
Proof.
  intros Hfile Hcontent Hx Hshort.
  split.
  { rewrite (parseResume_extracted w _ content raw Hcontent Hx).
    now rewrite (short_is_rejected raw Hshort). }
  unfold uploadResume. cbv [try_catch bind ret throw console_out].
  rewrite Hfile.
  erewrite parseResume_extracted; [|exact Hcontent|exact Hx].
  rewrite (short_is_rejected raw Hshort).
  cbv [fs_unlink].
  destruct (negb (String.eqb (path f) "")); [|split; reflexivity].
  cbn [files with_console]. rewrite Hcontent.
  destruct (undeletable content); split; reflexivity.
Qed.

Lemma long_is_accepted (raw : string) :
  (50 <= String.length (cleaned raw))%nat ->
  String.eqb (cleaned raw) "" || (String.length (cleaned raw) <? 50)%nat = false.
Proof.
  intros H. apply orb_false_iff. split.
  - apply String.eqb_neq. intros E. rewrite E in H. simpl in H. lia.
  - now apply Nat.ltb_ge.
Qed.

(** Runs the analysis stage symbolically: names its completion [r] and
    its final world [wa], and records what the stage leaves untouched. *)
Ltac run_analysis r wa F D R HO :=
  match goal with
  | |- context [analyzeResume ?i ?p ?t ?j ?W] =>
      pose proof (analyzeResume_outcome i p t j W) as HO;
      pose proof (keeps_analyzeResume i p t j W) as (F & D & R);
      destruct (analyzeResume i p t j W) as [r wa];
      cbn [fst snd files db resume_obj backend with_console with_resume with_db]
        in HO, F, D, R
  end.

(** C5, where the code departs from it: when the analysis stage throws
    (and the record is saved as failed), [uploadResume] returns from
    inside the inner [catch], before step 5: the answer is 500, the
    record is marked failed, and the upload directory is unchanged, the
    temporary file still in it. *)
Theorem upload_kept_after_analysis_failure
    (w : World B) (req : Request) (f : Upload) (content : File) (raw e : string) :
  let created := createdDoc req f (cleaned raw) in
  file req = Some f ->
  files w !! path f = Some content ->
  extractsTo (path f) content raw ->
  (50 <= String.length (cleaned raw))%nat ->
  validate created = Ok tt ->
  analysisOutcome invoke JSON_parse (cleaned raw) (body_jobDescription req) (backend w)
    = Throw e ->
  validate (setStatus failed created) = Ok tt ->
  fst (upload req w) = Ok (analysisFailedResponse e) /\
  files (snd (upload req w)) = files w /\
  files (snd (upload req w)) !! path f = Some content /\
  db (snd (upload req w)) !! fresh (dom (db w)) = Some (setStatus failed created).
Proof.
  intros created Hfile Hcontent Hx Hlong Hv0 Hout Hv1.
  unfold uploadResume, analysisStep.
  cbv [try_catch bind ret throw console_out Resume_create resume_update
       resume_save resume_read].
  rewrite Hfile.
  erewrite parseResume_extracted; [|exact Hcontent|exact Hx].
  rewrite (long_is_accepted raw Hlong).
  fold (createdDoc req f (cleaned raw)). fold created. rewrite Hv0.
  run_analysis r wa F D R HO.
  rewrite Hout in HO. subst r. rewrite R. cbn [resume_obj with_resume].
  fold created. rewrite Hv1.
  cbn [fst snd files db with_db with_resume with_console].
  rewrite F, D. split; [reflexivity|]. split; [reflexivity|].
  split; [exact Hcontent|]. apply lookup_insert_eq.
Qed.

(** When the analysis succeeds and the record is saved, the record is
    completed with the analysis, the answer is 201, and the file is
    unlinked (or, if the file system refuses, a warning is logged). *)
Lemma analysis_success_run
    (w : World B) (req : Request) (f : Upload) (content : File) (raw : string)
    (a : AnalysisResult) :
  let created := createdDoc req f (cleaned raw) in
  let done := setStatus completed (setAnalysis (Some a) created) in
  file req = Some f ->
  files w !! path f = Some content ->
  extractsTo (path f) content raw ->
  (50 <= String.length (cleaned raw))%nat ->
  validate created = Ok tt ->
  analysisOutcome invoke JSON_parse (cleaned raw) (body_jobDescription req) (backend w)
    = Ok a ->
  validate done = Ok tt ->
  fst (upload req w) =
    Ok {| statusCode := 201; success := true;
          message := "Resume analyzed successfully";
          error := None; data := Some done |} /\
  db (snd (upload req w)) !! fresh (dom (db w)) = Some done /\
  files (snd (upload req w)) =
    (if undeletable content then files w else delete (path f) (files w)).
Proof.
  intros created done Hfile Hcontent Hx Hlong Hv0 Hout Hv1.
  unfold uploadResume, analysisStep.
  cbv [try_catch bind ret throw console_out Resume_create resume_update
       resume_save resume_read fs_unlink].
  rewrite Hfile.
  erewrite parseResume_extracted; [|exact Hcontent|exact Hx].
  rewrite (long_is_accepted raw Hlong).
  fold (createdDoc req f (cleaned raw)). fold created. rewrite Hv0.
  run_analysis r wa F D R HO.
  rewrite Hout in HO. subst r. rewrite R. cbn [resume_obj with_resume].
  fold done. rewrite Hv1.
  cbn [fst snd files db resume_obj with_db with_resume with_console with_files].
  rewrite F, Hcontent.
  destruct (undeletable content);
    cbn [fst snd files db resume_obj with_db with_resume with_console with_files];
    rewrite ?F, D; (split; [reflexivity|]); (split; [|reflexivity]);
    apply lookup_insert_eq.
Qed.





(** C1, where the code departs from it: when the decoded analysis
    carries a [matchScore] above the schema's maximum of 100, which
    validation rejects on every save, neither [save] goes through: the
    handler ends in the outer [catch] with a 500 answer, and the record
    it created is still stored with status [processing]. *)
Theorem rejected_analysis_leaves_processing
    (w : World B) (req : Request) (f : Upload) (content : File) (raw : string)
    (a : AnalysisResult) (n : Z) :
  let created := createdDoc req f (cleaned raw) in
  (forall d a' k, analysis d = Some a' -> matchScore a' = VNum k -> (100 < k)%Z ->
                  exists e, validate d = Throw e) ->
  file req = Some f ->
  files w !! path f = Some content ->
  extractsTo (path f) content raw ->
  (50 <= String.length (cleaned raw))%nat ->
  validate created = Ok tt ->
  analysisOutcome invoke JSON_parse (cleaned raw) (body_jobDescription req) (backend w)
    = Ok a ->
  matchScore a = VNum n ->
  (100 < n)%Z ->
  exists e,
    fst (upload req w) = Ok (errorResponse e) /\
    db (snd (upload req w)) !! fresh (dom (db w)) = Some created /\
    status created = processing.
Proof.
  intros created Hschema Hfile Hcontent Hx Hlong Hv0 Hout Hscore Hn.
  destruct (Hschema (setStatus completed (setAnalysis (Some a) created)) a n
              eq_refl Hscore Hn) as [e1 E1].
  destruct (Hschema (setStatus failed (setStatus completed (setAnalysis (Some a) created)))
              a n eq_refl Hscore Hn) as [e2 E2].
  exists e2.
  unfold uploadResume, analysisStep.
  cbv [try_catch bind ret throw console_out Resume_create resume_update
       resume_save resume_read fs_unlink].
  rewrite Hfile.
  erewrite parseResume_extracted; [|exact Hcontent|exact Hx].
  rewrite (long_is_accepted raw Hlong).
  fold (createdDoc req f (cleaned raw)). fold created. rewrite Hv0.
  run_analysis r wa F D R HO.
  rewrite Hout in HO. subst r. rewrite R. cbn [resume_obj with_resume].
  rewrite E1. cbn [resume_obj with_resume]. rewrite E2.
  destruct (negb (String.eqb (path f) ""));
    cbn [fst snd files db resume_obj with_db with_resume with_console with_files].
  - rewrite F, Hcontent.
    destruct (undeletable content);
      cbn [fst snd files db resume_obj with_db with_resume with_console with_files];
      rewrite D; (split; [reflexivity|]); (split; [|reflexivity]);
      apply lookup_insert_eq.
  - rewrite D. split; [reflexivity|]. split; [|reflexivity].
    apply lookup_insert_eq.
Qed.

End WithCollaborators.

Lemma short_text_creates_no_record_witness :
  FileParser.parseResume Examples.uploadPath Examples.scannedWorld
    = (Throw FileParser.textTooShort, Examples.scannedWorld) /\
  fst (uploadResume Examples.scripted Examples.parseKnown Examples.scoreRangeValidator
         Examples.request Examples.scannedWorld)
    = Ok (errorResponse FileParser.textTooShort) /\
  db (snd (uploadResume Examples.scripted Examples.parseKnown Examples.scoreRangeValidator
             Examples.request Examples.scannedWorld)) = ∅.
Proof.
  apply (short_text_creates_no_record Examples.scripted Examples.parseKnown
           Examples.scoreRangeValidator Examples.scannedWorld Examples.request
           Examples.uploaded Examples.scannedPdf Examples.scannedRaw).
  - reflexivity.
  - reflexivity.
  - left. split; reflexivity.
  - vm_compute. lia.
Defined.

Lemma upload_kept_after_analysis_failure_witness :
  fst (uploadResume Examples.scripted Examples.parseKnown Examples.scoreRangeValidator
         Examples.request Examples.proseWorld)
    = Ok (analysisFailedResponse "AI analysis failed: AI returned invalid JSON response") /\
  files (snd (uploadResume Examples.scripted Examples.parseKnown
                Examples.scoreRangeValidator Examples.request Examples.proseWorld))
    = {[ Examples.uploadPath := Examples.resumePdf ]} /\
  files (snd (uploadResume Examples.scripted Examples.parseKnown
                Examples.scoreRangeValidator Examples.request Examples.proseWorld))
    !! Examples.uploadPath = Some Examples.resumePdf /\
  db (snd (uploadResume Examples.scripted Examples.parseKnown
             Examples.scoreRangeValidator Examples.request Examples.proseWorld))
    !! fresh (dom (∅ : gmap nat ResumeDoc))
    = Some (setStatus failed
              (createdDoc Examples.request Examples.uploaded (cleaned Examples.resumeRaw))).
Proof.
  apply (upload_kept_after_analysis_failure Examples.scripted Examples.parseKnown
           Examples.scoreRangeValidator Examples.proseWorld Examples.request
           Examples.uploaded Examples.resumePdf Examples.resumeRaw
           "AI analysis failed: AI returned invalid JSON response").
  - reflexivity.
  - reflexivity.
  - left. split; reflexivity.
  - vm_compute. lia.
  - reflexivity.
  - reflexivity.
  - reflexivity.
Defined.

Lemma scoreRangeValidator_max (d : ResumeDoc) (a : AnalysisResult) (k : Z) :
  analysis d = Some a -> matchScore a = VNum k -> (100 < k)%Z ->
  exists e, Examples.scoreRangeValidator d = Throw e.
Proof.
  intros Ha Hs Hk. unfold Examples.scoreRangeValidator. rewrite Ha, Hs.
  destruct (k <? 0)%Z; [eexists; reflexivity|].
  destruct (Z.ltb_spec 100 k); [eexists; reflexivity | lia].
Defined.

Lemma rejected_analysis_leaves_processing_witness :
  exists e,
    fst (uploadResume Examples.scripted Examples.parseKnown Examples.scoreRangeValidator
           Examples.request Examples.overratedWorld) = Ok (errorResponse e) /\
    db (snd (uploadResume Examples.scripted Examples.parseKnown
               Examples.scoreRangeValidator Examples.request Examples.overratedWorld))
      !! fresh (dom (∅ : gmap nat ResumeDoc))
      = Some (createdDoc Examples.request Examples.uploaded (cleaned Examples.resumeRaw)) /\
    status (createdDoc Examples.request Examples.uploaded (cleaned Examples.resumeRaw))
      = processing.
Proof.
  apply (rejected_analysis_leaves_processing Examples.scripted Examples.parseKnown
           Examples.scoreRangeValidator Examples.overratedWorld Examples.request
           Examples.uploaded Examples.resumePdf Examples.resumeRaw
           Examples.overratedResult 150).
  - exact scoreRangeValidator_max.
  - reflexivity.
  - reflexivity.
  - left. split; reflexivity.
  - vm_compute. lia.
  - reflexivity.
  - reflexivity.
  - reflexivity.
  - lia.
Defined.

End UploadFacts.

(** ** Scoring and ranking *)
Module JobFacts.
Import JobService JobStated.
Local Open Scope Z_scope.

Lemma fexp_eq (e : Z) : fexp prec emax e = Z.max (e - 53) (-1074).
Proof. reflexivity. Qed.

Lemma shr_1_nonneg (mrs : shr_record) : 0 <= shr_m mrs -> 0 <= shr_m (shr_1 mrs).
Proof.
  destruct mrs as [m r s]. simpl. intros H.
  destruct m as [|p|p]; [simpl; lia| |lia].
  destruct p; simpl; lia.
Qed.


Lemma iter_shr_1_nonneg (n : positive) (mrs : shr_record) :
  0 <= shr_m mrs -> 0 <= shr_m (SpecFloat.iter_pos shr_1 n mrs).
Proof.
  revert mrs. induction n as [n IH|n IH|]; intros mrs H; simpl.
  - apply IH, IH, shr_1_nonneg, H.
  - apply IH, IH, H.
  - apply shr_1_nonneg, H.
Qed.

Lemma shr_fexp_nonneg (m e : Z) (l : SpecFloat.location) :
  0 <= m -> 0 <= shr_m (fst (shr_fexp prec emax m e l)).
Proof.
  intros H. unfold shr_fexp, shr.
  assert (H0 : 0 <= shr_m (shr_record_of_loc m l)).
  { destruct l as [|[]]; exact H. }
  destruct (fexp prec emax (Zdigits2 m + e) - e); simpl; auto.
  now apply iter_shr_1_nonneg.
Qed.

Lemma round_nearest_even_nonneg (m : Z) (l : SpecFloat.location) :
  0 <= m -> 0 <= round_nearest_even m l.
Proof.
  intros H. destruct l as [|[]]; simpl; try lia.
  destruct (Z.even m); lia.
Qed.

Lemma binary_round_aux_not_nan (s : bool) (m e : Z) (l : SpecFloat.location) :
  0 <= m -> binary_round_aux prec emax s m e l <> S754_nan.
Proof.
  intros H. unfold binary_round_aux.
  pose proof (shr_fexp_nonneg m e l H) as H1.
  destruct (shr_fexp prec emax m e l) as [mrs' e']. simpl in H1.
  pose proof (shr_fexp_nonneg _ e' loc_Exact
                (round_nearest_even_nonneg _ (loc_of_shr_record mrs') H1)) as H2.
  destruct (shr_fexp prec emax (round_nearest_even _ _) e' loc_Exact) as [mrs'' e''].
  simpl in H2. destruct (shr_m mrs'') as [|p|p]; [discriminate| |lia].
  destruct (e'' <=? emax - prec); discriminate.
Qed.

Lemma digits2_pos_size (p : positive) : digits2_pos p = Pos.size p.
Proof. induction p as [p IH|p IH|]; simpl; [now rewrite IH|now rewrite IH|reflexivity]. Qed.

Lemma digits2_pos_shift (p k : positive) :
  digits2_pos (Pos.iter xO p k) = (digits2_pos p + k)%positive.
Proof.
  induction k as [|k IH] using Pos.peano_ind.
  - simpl. now rewrite Pos.add_1_r.
  - rewrite Pos.iter_succ. simpl. rewrite IH. now rewrite Pos.add_succ_r.
Qed.

Lemma digits_bound (p : positive) : Zpos p < 2 ^ 53 -> Zpos (digits2_pos p) <= 53.
Proof.
  intros H. rewrite digits2_pos_size.
  destruct (Z.le_gt_cases (Zpos (Pos.size p)) 53) as [L|G]; [exact L|].
  exfalso. pose proof (Pos.size_le p) as S.
  apply Pos2Z.pos_le_pos in S. rewrite Pos2Z.inj_pow in S.
  assert (2 ^ 54 <= 2 ^ Zpos (Pos.size p)) by (apply Z.pow_le_mono_r; lia).
  change (Zpos p~0) with (2 * Zpos p) in S. lia.
Qed.

Lemma binary_round_aux_canonical (s : bool) (m : positive) (e : Z) :
  Zpos (digits2_pos m) = 53 -> -1074 <= e <= 971 ->
  binary_round_aux prec emax s (Zpos m) e loc_Exact = S754_finite s m e.
Proof.
  intros Hd He. unfold binary_round_aux, shr_fexp.
  cbn [Zdigits2 shr_record_of_loc]. rewrite Hd, fexp_eq.
  replace (Z.max (53 + e - 53) (-1074) - e) with 0 by lia.
  cbn [shr shr_m loc_of_shr_record round_nearest_even Zdigits2 shr_record_of_loc].
  rewrite Hd, fexp_eq.
  replace (Z.max (53 + e - 53) (-1074) - e) with 0 by lia.
  cbn [shr shr_m].
  destruct (Z.leb_spec e (emax - prec)) as [_|L]; [reflexivity|].
  unfold emax, prec in L. lia.
Qed.

Lemma binary_round_finite (p : positive) :
  Zpos p < 2 ^ 53 -> exists m e, binary_round prec emax false p 0 = S754_finite false m e.
Proof.
  intros H. pose proof (digits_bound p H) as Hd.
  unfold binary_round, shl_align. rewrite fexp_eq.
  replace (Z.max (Zpos (digits2_pos p) + 0 - 53) (-1074) - 0)
    with (Zpos (digits2_pos p) - 53) by lia.
  replace (Z.max (Zpos (digits2_pos p) + 0 - 53) (-1074))
    with (Zpos (digits2_pos p) - 53) by lia.
  destruct (Zpos (digits2_pos p) - 53) as [|k|k] eqn:E; [|lia|].
  - eexists. eexists. apply binary_round_aux_canonical; lia.
  - eexists. eexists. apply binary_round_aux_canonical; [|lia].
    rewrite digits2_pos_shift. lia.
Qed.

Lemma of_nat_zero : of_nat 0 = S754_zero false.
Proof. reflexivity. Qed.

Lemma of_nat_finite (n : nat) :
  (0 < n)%nat -> Z.of_nat n < 2 ^ 53 ->
  exists m e, of_nat n = S754_finite false m e.
Proof.
  intros Hpos Hlt. unfold of_nat, binary_normalize.
  destruct (Z.of_nat n) as [|p|p] eqn:E; [lia| |lia].
  now apply binary_round_finite.
Qed.

Lemma div_not_nan (x : double) (s : bool) (m : positive) (e : Z) :
  (x = S754_zero false \/ exists mx ex, x = S754_finite false mx ex) ->
  div x (S754_finite s m e) <> S754_nan.
Proof.
  intros [->|(mx & ex & ->)]; [discriminate|].
  unfold div, SFdiv, SFdiv_core_binary.
  set (shift := _ - _ - Z.min _ _).
  set (m' := match shift with Z0 => Zpos mx | Zpos _ => Z.shiftl (Zpos mx) shift | Zneg _ => 0 end).
  assert (Hm' : 0 <= m').
  { unfold m'. destruct shift; [lia| |lia]. apply Z.shiftl_nonneg. lia. }
  assert (Hq : 0 <= fst (Z.div_eucl m' (Zpos m))).
  { change (fst (Z.div_eucl m' (Zpos m))) with (m' / Zpos m).
    apply Z.div_pos; lia. }
  destruct (Z.div_eucl m' (Zpos m)) as [q r]. simpl in Hq.
  now apply binary_round_aux_not_nan.
Qed.

Lemma hundred_finite : of_nat 100 = S754_finite false 7036874417766400 (-46).
Proof. reflexivity. Qed.

Lemma mul_hundred_not_nan (x : double) :
  x <> S754_nan -> mul x (of_nat 100) <> S754_nan.
Proof.
  intros H. rewrite hundred_finite. unfold mul, SFmul.
  destruct x as [s|s| |s m e]; try discriminate; [congruence|].
  now apply binary_round_aux_not_nan.
Qed.

Lemma clamp_rounded (x : double) :
  x <> S754_nan ->
  exists z, clampRound x = RInt z /\ 0 <= z <= 100.
Proof.
  intros H. unfold clampRound.
  destruct x as [s|s| |s m e]; cbn [Math_round Math_max Math_min].
  - exists 0. split; [reflexivity | lia].
  - destruct s; [exists 0 | exists 100]; split; try reflexivity; lia.
  - congruence.
  - eexists. split; [reflexivity | lia].
Qed.

Lemma count_fold {A} (f : A -> bool) (l : list A) (n : nat) :
  fold_left (fun count x => if f x then S count else count) l n =
  (n + length (List.filter f l))%nat.
Proof.
  revert n. induction l as [|x l IH]; intros n; simpl; [lia|].
  rewrite IH. destruct (f x); simpl; lia.
Qed.

Lemma calculateMatchScore_unfold (j : Job) (skills : UserSkills) :
  calculateMatchScore j skills =
  if (length (allSkills skills) =? 0)%nat then RInt 50
  else clampRound (product (matchedCount j skills) (length (allSkills skills))).
Proof.
  unfold calculateMatchScore, clampRound, product, matchedCount.
  now rewrite count_fold.
Qed.

Lemma product_not_nan (matched total : nat) :
  (matched <= total)%nat -> (0 < total)%nat -> Z.of_nat total < 2 ^ 53 ->
  product matched total <> S754_nan.
Proof.
  intros Hle Hpos Hlt. unfold product. apply mul_hundred_not_nan.
  destruct (of_nat_finite total Hpos Hlt) as (m & e & ->).
  apply div_not_nan.
  destruct matched as [|k]; [left; reflexivity|right].
  apply of_nat_finite; lia.
Qed.

Lemma score_is_integer (j : Job) (skills : UserSkills) :
  Z.of_nat (length (allSkills skills)) < 2 ^ 53 ->
  exists z, calculateMatchScore j skills = RInt z /\ 0 <= z <= 100.
Proof.
  intros Hlt. rewrite calculateMatchScore_unfold.
  destruct (Nat.eqb_spec (length (allSkills skills)) 0) as [E|NE].
  - exists 50. split; [reflexivity | lia].
  - apply clamp_rounded, product_not_nan; [|lia|exact Hlt].
    unfold matchedCount. apply List.filter_length_le.
Qed.

Lemma comparator_on_integers (x y : ScoredJob) :
  hasIntScore x -> hasIntScore y ->
  positive_result (byScoreDescending x y) = (scoreOf x <? scoreOf y).
Proof.
  intros [a Ha] [b Hb]. unfold byScoreDescending, scoreOf. rewrite Ha, Hb. simpl.
  destruct (Z.ltb_spec 0 (b - a)), (Z.ltb_spec a b); try reflexivity; lia.
Qed.

Lemma insert_sorted_perm {A} (cmp : A -> A -> Rounded) (x : A) (l : list A) :
  Permutation (insert_sorted cmp x l) (x :: l).
Proof.
  induction l as [|y l IH]; simpl; [reflexivity|].
  destruct (positive_result (cmp x y)); [|reflexivity].
  rewrite IH. apply perm_swap.
Qed.

Lemma Array_sort_perm {A} (cmp : A -> A -> Rounded) (l : list A) :
  Permutation (Array_sort cmp l) l.
Proof.
  induction l as [|x l IH]; simpl; [reflexivity|].
  rewrite insert_sorted_perm. now rewrite IH.
Qed.

Lemma insert_keeps_descending (x : ScoredJob) (l : list ScoredJob) :
  hasIntScore x -> Forall hasIntScore l ->
  StronglySorted descending l ->
  StronglySorted descending (insert_sorted byScoreDescending x l).
Proof.
  intros Hx Hl Hs. induction Hs as [|y l Hs IH Hy]; simpl.
  - repeat constructor.
  - inversion Hl as [|? ? Hy' Hl']; subst.
    rewrite (comparator_on_integers x y Hx Hy').
    destruct (Z.ltb_spec (scoreOf x) (scoreOf y)) as [L|G].
    + constructor; [now apply IH|].
      eapply Permutation_Forall; [symmetry; apply insert_sorted_perm|].
      constructor; [unfold descending; lia | exact Hy].
    + constructor; [now constructor|].
      constructor; [exact G|].
      eapply Forall_impl; [exact Hy|].
      unfold descending. intros; lia.
Qed.

Lemma insert_keeps_order (z : Z) (x : ScoredJob) (l : list ScoredJob) :
  hasIntScore x -> Forall hasIntScore l ->
  List.filter (scored z) (insert_sorted byScoreDescending x l) =
  List.filter (scored z) (x :: l).
Proof.
  intros Hx Hl. induction Hl as [|y l Hy Hl IH]; [reflexivity|].
  cbn [insert_sorted]. rewrite (comparator_on_integers x y Hx Hy).
  destruct (Z.ltb_spec (scoreOf x) (scoreOf y)) as [L|G]; [|reflexivity].
  cbn [List.filter] in *. rewrite IH. unfold scored.
  destruct (Z.eqb_spec (scoreOf y) z), (Z.eqb_spec (scoreOf x) z);
    try reflexivity; lia.
Qed.

Lemma sort_spec (l : list ScoredJob) :
  Forall hasIntScore l ->
  Permutation (Array_sort byScoreDescending l) l /\
  StronglySorted descending (Array_sort byScoreDescending l) /\
  (forall z, List.filter (scored z) (Array_sort byScoreDescending l) =
             List.filter (scored z) l).
Proof.
  intros Hl. split; [apply Array_sort_perm|].
  induction Hl as [|x l Hx Hl (IHs & IHf)]; [split; [constructor | reflexivity]|].
  assert (Hsorted : Forall hasIntScore (Array_sort byScoreDescending l)).
  { eapply Permutation_Forall; [symmetry; apply Array_sort_perm | exact Hl]. }
  split.
  - now apply insert_keeps_descending.
  - intros z. cbn [Array_sort fold_right].
    change (fold_right (insert_sorted byScoreDescending) [] l)
      with (Array_sort byScoreDescending l).
    rewrite (insert_keeps_order z x _ Hx Hsorted).
    cbn [List.filter]. now rewrite IHf.
Qed.

Lemma four_listings (a b c d : ScoredJob) :
  matchScore a = RInt 40 -> matchScore b = RInt 90 ->
  matchScore c = RInt 40 -> matchScore d = RInt 10 ->
  Array_sort byScoreDescending [a; b; c; d] = [b; a; c; d].
Proof.
  destruct a, b, c, d. simpl. intros -> -> -> ->. reflexivity.
Qed.

Lemma within_limit_exact {A} (l : list A) :
  withinArrayLimit l -> Z.of_nat (length l) < 2 ^ 53.
Proof. unfold withinArrayLimit. lia. Qed.

(** Below forty skills the double arithmetic rounds as exact
    arithmetic does. *)
Lemma small_totals_checked :
  forallb (fun total => forallb (roundsExactly total) (seq 0 (S total))) (seq 1 39) = true.
Proof. vm_compute. reflexivity. Qed.

Lemma small_totals_round_exactly (matched total : nat) :
  (matched <= total)%nat -> (0 < total < 40)%nat ->
  clampRound (product matched total) =
  RInt (nearest (100 * Z.of_nat matched) (Z.of_nat total)).
Proof.
  intros Hm Ht. pose proof small_totals_checked as H.
  rewrite forallb_forall in H.
  specialize (H total). rewrite in_seq in H. specialize (H ltac:(lia)).
  rewrite forallb_forall in H.
  specialize (H matched). rewrite in_seq in H. specialize (H ltac:(lia)).
  unfold roundsExactly in H.
  destruct (clampRound (product matched total)); try discriminate H.
  apply Z.eqb_eq in H. now subst.
Qed.

(** C3, as amended: for a skill list within the array length limit,
    [calculateMatchScore] returns an integer in [0, 100]; it is exactly
    50 when [allSkills] is empty; otherwise it is [Math.round], clamped,
    of the double-precision product [(matchedCount / total) * 100], with
    [matchedCount] the number of skills whose lower-cased text occurs in
    the lower-cased title and description; for fewer than forty skills
    that is the nearest integer to [100 * matchedCount / total]. *)
Theorem match_score_is_rounded_product (j : Job) (skills : UserSkills) :
  withinArrayLimit (allSkills skills) ->
  exists z,
    calculateMatchScore j skills = RInt z /\
    0 <= z <= 100 /\
    (allSkills skills = [] -> z = 50) /\
    (allSkills skills <> [] ->
     RInt z = clampRound (product (matchedCount j skills) (length (allSkills skills)))) /\
    (allSkills skills <> [] -> (length (allSkills skills) < 40)%nat ->
     z = nearest (100 * Z.of_nat (matchedCount j skills))
           (Z.of_nat (length (allSkills skills)))).
Proof.
  intros Hlim. apply within_limit_exact in Hlim.
  destruct (score_is_integer j skills Hlim) as (z & Hz & Hrange).
  exists z. split; [exact Hz|]. split; [exact Hrange|].
  rewrite calculateMatchScore_unfold in Hz.
  assert (Hcount : (matchedCount j skills <= length (allSkills skills))%nat)
    by apply List.filter_length_le.
  destruct (Nat.eqb_spec (length (allSkills skills)) 0) as [E0|NE].
  - apply length_zero_iff_nil in E0.
    split; [intros _; congruence|]. split; congruence.
  - split; [intros E; rewrite E in NE; simpl in NE; lia|]. split.
    + intros _. symmetry. exact Hz.
    + intros _ Hsmall.
      rewrite small_totals_round_exactly in Hz; [congruence | exact Hcount | lia].
Qed.

Lemma match_score_is_rounded_product_witness :
  exists z,
    calculateMatchScore Examples.reactListing
      (extractSkills (Examples.skillsOf ["React"; "Node.js"] [])) = RInt z /\
    0 <= z <= 100.
Proof.
  destruct (match_score_is_rounded_product Examples.reactListing
              (extractSkills (Examples.skillsOf ["React"; "Node.js"] [])))
    as (z & Hz & Hrange & _).
  - vm_compute. reflexivity.
  - exists z. split; assumption.
Defined.

(** The first end-to-end scenario of the specification. *)
Example react_of_two_skills :
  scoreJob (extractSkills (Examples.skillsOf ["React"; "Node.js"] [])) Examples.reactListing =
  {| job := Examples.reactListing; matchScore := RInt 50;
     matchedSkills := ["React"%string]; missingSkills := ["Node.js"%string] |}.
Proof. vm_compute. reflexivity. Qed.

(** C3 as stated fails: with 23 of 40 skills matched, [100 * 23 / 40] is
    57.5, which rounds to 58 (a half going up, or to even); the
    double-precision quotient times 100 falls just below 57.5 and the
    code returns 57. Rounding a half down does not fit either: 1 of 8
    skills is 12.5 and the code returns 13. *)
Lemma twenty_three_of_forty :
  matchedCount Examples.reactListing Examples.fortySkills = 23%nat /\
  length (allSkills Examples.fortySkills) = 40%nat /\
  nearest (100 * 23) 40 = 58 /\
  calculateMatchScore Examples.reactListing Examples.fortySkills = RInt 57 /\
  calculateMatchScore Examples.reactListing Examples.fortySkills <>
    RInt (nearest (100 * Z.of_nat (matchedCount Examples.reactListing Examples.fortySkills))
            (Z.of_nat (length (allSkills Examples.fortySkills)))) /\
  matchedCount Examples.reactListing Examples.eightSkills = 1%nat /\
  length (allSkills Examples.eightSkills) = 8%nat /\
  calculateMatchScore Examples.reactListing Examples.eightSkills = RInt 13.
Proof. vm_compute. repeat split. discriminate. Qed.

Lemma ranked_scores_are_integers (jobs : list Job) (skills : UserSkills) :
  withinArrayLimit (allSkills skills) ->
  Forall hasIntScore (map (scoreJob skills) jobs).
Proof.
  intros Hlim. apply within_limit_exact in Hlim.
  induction jobs as [|j jobs IH]; constructor; [|exact IH].
  destruct (score_is_integer j skills Hlim) as (z & Hz & _).
  exists z. exact Hz.
Qed.

(** C6: whatever listings the upstream source returns,
    [matchJobsWithResume] returns the same listings, scored, in
    descending order of [matchScore], and for every score the listings
    with that score stand in the order the source gave them; four
    listings scored 40, 90, 40, 10 come out as second, first, third,
    fourth. *)
Theorem ranking_descending_and_stable
    (fetchJobsFromAPI : string -> string -> nat -> list Job)
    (resume : Resume) (options : Options) :
  withinArrayLimit (allSkills (extractSkills resume)) ->
  let received := map (scoreJob (extractSkills resume))
                    (upstream fetchJobsFromAPI resume options) in
  let ranked := matchJobsWithResume fetchJobsFromAPI resume options in
  Permutation ranked received /\
  StronglySorted descending ranked /\
  (forall z, List.filter (scored z) ranked = List.filter (scored z) received) /\
  (forall a b c d,
     matchScore a = RInt 40 -> matchScore b = RInt 90 ->
     matchScore c = RInt 40 -> matchScore d = RInt 10 ->
     Array_sort byScoreDescending [a; b; c; d] = [b; a; c; d]).
Proof.
  intros Hlim received ranked.
  destruct (sort_spec received) as (P & S & F).
  { apply ranked_scores_are_integers, Hlim. }
  repeat split; [exact P | exact S | exact F | apply four_listings].
Qed.

Lemma ranking_descending_and_stable_witness :
  map scoreOf (matchJobsWithResume Examples.fixedSource Examples.tenSkills
                 Examples.noOptions) = [90; 40; 40; 10] /\
  StronglySorted descending
    (matchJobsWithResume Examples.fixedSource Examples.tenSkills Examples.noOptions).
Proof.
  split; [vm_compute; reflexivity|].
  apply (ranking_descending_and_stable Examples.fixedSource Examples.tenSkills
           Examples.noOptions).
  vm_compute. reflexivity.
Defined.

(** The two listings scored 40 keep the order of the source. *)
Example ranking_of_four_listings :
  map (fun s => title (job s))
    (matchJobsWithResume Examples.fixedSource Examples.tenSkills Examples.noOptions) =
  ["Full Stack Developer"; "Frontend Developer"; "Platform Developer";
   "Release Manager"]%string.
Proof. vm_compute. reflexivity. Qed.

End JobFacts.

(** ** Whitespace normalization and [parseResume] *)
Module CleaningFacts.
Import JsStringFacts UploadStated MoreStated.

Lemma space_is_whitespace : isWhitespace " "%char = true.
Proof. reflexivity. Qed.

Lemma collapse_tidy (s : string) (b : bool) : tidy b (collapseFrom b s) = true.
Proof.
  revert b. induction s as [|c s IH]; intros b; [reflexivity|].
  cbn [collapseFrom]. destruct (isWhitespace c) eqn:W.
  - destruct b; [apply IH|].
    cbn [tidy]. rewrite space_is_whitespace, Ascii.eqb_refl. apply IH.
  - cbn [tidy]. rewrite W. apply IH.
Qed.

Lemma tidy_fixed (s : string) (b : bool) : tidy b s = true -> collapseFrom b s = s.
Proof.
  revert b. induction s as [|c s IH]; intros b H; [reflexivity|].
  cbn [tidy collapseFrom] in *. destruct (isWhitespace c) eqn:W.
  - apply andb_true_iff in H as [H Ht]. apply andb_true_iff in H as [Hb Hc].
    destruct b; [discriminate Hb|]. apply Ascii.eqb_eq in Hc. subst c.
    now rewrite (IH true Ht).
  - now rewrite (IH false H).
Qed.

Lemma tidy_weaken (s : string) : tidy true s = true -> tidy false s = true.
Proof.
  destruct s as [|c s]; [reflexivity|]. cbn [tidy].
  destruct (isWhitespace c); [discriminate | trivial].
Qed.

Lemma tidy_trimStart (s : string) (b : bool) :
  tidy b s = true -> tidy false (trimStart s) = true.
Proof.
  revert b. induction s as [|c s IH]; intros b H; [reflexivity|].
  cbn [tidy trimStart] in *. destruct (isWhitespace c) eqn:W.
  - apply andb_true_iff in H as [_ Ht]. now apply (IH true).
  - cbn [tidy]. now rewrite W.
Qed.

Lemma tidy_trimEnd (s : string) (b : bool) :
  tidy b s = true -> tidy b (trimEnd s) = true.
Proof.
  revert b. induction s as [|c s IH]; intros b H; [reflexivity|].
  cbn [trimEnd]. destruct (isWhitespace c && String.eqb (trimEnd s) ""); [reflexivity|].
  cbn [tidy] in *. destruct (isWhitespace c).
  - apply andb_true_iff in H as [H Ht]. rewrite H. now apply IH.
  - now apply IH.
Qed.

Lemma trimEnd_idempotent (s : string) : trimEnd (trimEnd s) = trimEnd s.
Proof.
  induction s as [|c s IH]; [reflexivity|].
  cbn [trimEnd]. destruct (isWhitespace c && String.eqb (trimEnd s) "") eqn:E;
    [reflexivity|].
  cbn [trimEnd]. rewrite IH, E. reflexivity.
Qed.

Lemma trimStart_shorter (s : string) :
  (String.length (trimStart s) <= String.length s)%nat.
Proof.
  induction s as [|c s IH]; [reflexivity|]. cbn [trimStart].
  destruct (isWhitespace c); simpl; lia.
Qed.

Lemma trimStart_trimEnd (s : string) :
  trimStart s = s -> trimStart (trimEnd s) = trimEnd s.
Proof.
  destruct s as [|c s]; [reflexivity|]. cbn [trimStart trimEnd].
  destruct (isWhitespace c) eqn:W.
  - intros H. pose proof (trimStart_shorter s) as L. rewrite H in L. simpl in L. lia.
  - intros _. simpl. cbn [trimStart]. now rewrite W.
Qed.

Lemma trim_idempotent (s : string) : trim (trim s) = trim s.
Proof.
  unfold trim.
  rewrite (trimStart_trimEnd (trimStart s) (trimStart_idempotent s)).
  apply trimEnd_idempotent.
Qed.

Lemma cleaned_tidy (s : string) : tidy false (cleaned s) = true.
Proof.
  unfold cleaned, trim, collapseWhitespace.
  apply tidy_trimEnd. apply (tidy_trimStart _ false). apply collapse_tidy.
Qed.

Lemma cleaned_fixed (s : string) : cleaned (cleaned s) = cleaned s.
Proof.
  unfold cleaned at 1. unfold collapseWhitespace.
  rewrite (tidy_fixed _ false (cleaned_tidy s)).
  unfold cleaned. apply trim_idempotent.
Qed.

Lemma cleaned_trimmed (s : string) : trim (cleaned s) = cleaned s.
Proof. unfold cleaned. apply trim_idempotent. Qed.

(** X1: the cleaning [parseResume] applies (whitespace runs to one
    space, then trim) is idempotent, and what it returns has no
    whitespace at either end and no whitespace but single spaces. *)
Theorem cleaning_is_idempotent (s : string) :
  cleaned (cleaned s) = cleaned s /\
  trim (cleaned s) = cleaned s /\
  collapseWhitespace (cleaned s) = cleaned s /\
  tidy false (cleaned s) = true.
Proof.
  split; [apply cleaned_fixed|]. split; [apply cleaned_trimmed|].
  split; [|apply cleaned_tidy]. apply tidy_fixed, cleaned_tidy.
Qed.

Section WithState.
Context {B : Type}.

(** [parseResume] reads the upload directory and nothing else. *)
Lemma parseResume_run (filePath : string) (w : World B) :
  FileParser.parseResume filePath w = (parseOutcome filePath (files w), w).
Proof.
  unfold FileParser.parseResume, FileParser.parsePDF, FileParser.parseDOCX,
    parseOutcome.
  cbv [try_catch bind ret throw lift fs_readFile]. fold cleaned.
  destruct (String.eqb _ ".pdf"); [|destruct (String.eqb _ ".docx")];
    cbn [res_bind];
    try (destruct (files w !! filePath) as [f|]; cbn [res_bind];
         [match goal with |- context [?t f] => destruct (t f) as [raw|e] end|];
         cbn [res_bind]);
    try reflexivity;
    fold (cleaned raw);
    destruct (String.eqb (cleaned raw) "" || (String.length (cleaned raw) <? 50)%nat);
    reflexivity.
Qed.

Lemma parseOutcome_ok (filePath : string) (fs : gmap string File) (text : string) :
  parseOutcome filePath fs = Ok text ->
  exists raw, text = cleaned raw /\ (50 <= String.length (cleaned raw))%nat.
Proof.
  unfold parseOutcome. intros H.
  match type of H with res_bind ?r _ = _ => destruct r as [raw|e] end;
    [|discriminate H].
  cbn [res_bind] in H. exists raw.
  destruct (String.eqb (cleaned raw) "") eqn:E; [discriminate H|].
  destruct (Nat.ltb_spec (String.length (cleaned raw)) 50); [discriminate H|].
  cbn [orb] in H. inversion H. auto.
Qed.

(** X2: whatever [parseResume] returns is at least 50 characters long
    and already clean (cleaning or trimming it again changes nothing),
    and the call leaves the state as it was. *)
Theorem parsed_text_is_clean (filePath text : string) (w w' : World B) :
  FileParser.parseResume filePath w = (Ok text, w') ->
  w' = w /\
  (50 <= String.length text)%nat /\
  cleaned text = text /\
  trim text = text.
Proof.
  rewrite parseResume_run. intros H. inversion H as [[Ho Hw]].
  destruct (parseOutcome_ok _ _ _ Ho) as (raw & -> & L).
  split; [reflexivity|]. split; [exact L|].
  split; [apply cleaned_fixed | apply cleaned_trimmed].
Qed.

(** X3: a path whose extension is neither [.pdf] nor [.docx] (in any
    letter case) is refused as unsupported whatever the upload
    directory holds, the file included or not. *)
Theorem other_extensions_unsupported (filePath : string) (w : World B) :
  toLowerCase (extname filePath) <> ".pdf" ->
  toLowerCase (extname filePath) <> ".docx" ->
  FileParser.parseResume filePath w = (Throw FileParser.unsupportedFormat, w).
Proof.
  intros Hp Hd. rewrite parseResume_run. unfold parseOutcome.
  apply String.eqb_neq in Hp, Hd. now rewrite Hp, Hd.
Qed.

(** X4: every error of [parseResume] is one of four: unsupported
    format, text too short, or the extractor's own failure behind the
    prefix of the extractor used; a missing file is such a failure. *)
Theorem parse_errors_are_wrapped (filePath e : string) (w w' : World B) :
  FileParser.parseResume filePath w = (Throw e, w') ->
  e = FileParser.unsupportedFormat \/
  e = FileParser.textTooShort \/
  (toLowerCase (extname filePath) = ".pdf" /\
   exists m, e = "PDF parsing failed: " ++ m) \/
  (toLowerCase (extname filePath) = ".docx" /\
   exists m, e = "DOCX parsing failed: " ++ m).
Proof.
  rewrite parseResume_run. unfold parseOutcome. intros H.
  inversion H as [[Ho Hw]]. clear H Hw.
  assert (T : forall raw,
             (if String.eqb (cleaned raw) "" || (String.length (cleaned raw) <? 50)%nat
              then Throw FileParser.textTooShort else Ok (cleaned raw)) = Throw e ->
             e = FileParser.textTooShort).
  { intros raw H. destruct (_ || _); inversion H; reflexivity. }
  destruct (String.eqb_spec (toLowerCase (extname filePath)) ".pdf") as [Ep|_];
    [|destruct (String.eqb_spec (toLowerCase (extname filePath)) ".docx") as [Ed|_]].
  - destruct (files w !! filePath) as [f|]; [destruct (pdfText f) as [raw|m]|];
      cbn [res_bind] in Ho.
    + right; left. eapply T, Ho.
    + inversion Ho. right; right; left. eauto.
    + inversion Ho. right; right; left. eauto.
  - destruct (files w !! filePath) as [f|]; [destruct (docxText f) as [raw|m]|];
      cbn [res_bind] in Ho.
    + right; left. eapply T, Ho.
    + inversion Ho. right; right; right. eauto.
    + inversion Ho. right; right; right. eauto.
  - cbn [res_bind] in Ho. inversion Ho. left. reflexivity.
Qed.

End WithState.
Lemma parsed_text_is_clean_witness :
  Examples.proseWorld = Examples.proseWorld /\
  (50 <= String.length (cleaned Examples.resumeRaw))%nat /\
  cleaned (cleaned Examples.resumeRaw) = cleaned Examples.resumeRaw /\
  trim (cleaned Examples.resumeRaw) = cleaned Examples.resumeRaw.
Proof.
  apply (parsed_text_is_clean Examples.uploadPath (cleaned Examples.resumeRaw)
           Examples.proseWorld Examples.proseWorld).
  vm_compute. reflexivity.
Defined.

Lemma other_extensions_unsupported_witness :
  FileParser.parseResume "uploads/7_1700000000000.txt" Examples.proseWorld =
  (Throw FileParser.unsupportedFormat, Examples.proseWorld).
Proof.
  apply (other_extensions_unsupported "uploads/7_1700000000000.txt" Examples.proseWorld);
    discriminate.
Defined.

Lemma parse_errors_are_wrapped_witness :
  "PDF parsing failed: ENOENT: no such file or directory, open 'uploads/cv.pdf'"
    = FileParser.unsupportedFormat \/
  "PDF parsing failed: ENOENT: no such file or directory, open 'uploads/cv.pdf'"
    = FileParser.textTooShort \/
  (toLowerCase (extname "uploads/cv.pdf") = ".pdf" /\
   exists m,
     "PDF parsing failed: ENOENT: no such file or directory, open 'uploads/cv.pdf'"
       = "PDF parsing failed: " ++ m) \/
  (toLowerCase (extname "uploads/cv.pdf") = ".docx" /\
   exists m,
     "PDF parsing failed: ENOENT: no such file or directory, open 'uploads/cv.pdf'"
       = "DOCX parsing failed: " ++ m).
Proof.
  apply (parse_errors_are_wrapped "uploads/cv.pdf" _
           Examples.proseWorld Examples.proseWorld).
  reflexivity.
Defined.

End CleaningFacts.

(** ** The upload filter and the parser's dispatch *)
Module ExtensionFacts.
Import JsStringFacts MoreStated UploadMiddleware.
















End ExtensionFacts.


(** ** More on [analyzeResume] and its parts *)
Module AnalyzerMore.
Import Js Analyzer Outcome JsStringFacts AnalyzerFacts Stated MoreStated.

Lemma includes_unfold (s sub : string) :
  includes s sub =
  startsWith s sub ||
  match s with
  | EmptyString => false
  | String _ s' => includes s' sub
  end.
Proof. destruct s; reflexivity. Qed.

Lemma startsWith_append (a b p : string) :
  startsWith a p = true -> startsWith (a ++ b) p = true.
Proof.
  revert a. induction p as [|c p IH]; intros a H; [reflexivity|].
  destruct a as [|d a]; [discriminate H|].
  rewrite append_cons. cbn [startsWith] in *.
  apply andb_true_iff in H as [Hc Hp]. now rewrite Hc, (IH a Hp).
Qed.

Lemma startsWith_self (s b : string) : startsWith (s ++ b) s = true.
Proof.
  induction s as [|c s IH]; [reflexivity|].
  rewrite append_cons. cbn [startsWith]. now rewrite Ascii.eqb_refl, IH.
Qed.

Lemma includes_here (s b : string) : includes (s ++ b) s = true.
Proof. rewrite includes_unfold, startsWith_self. reflexivity. Qed.

Lemma includes_append_r (a b s : string) :
  includes b s = true -> includes (a ++ b) s = true.
Proof.
  intros H. induction a as [|x a IH]; [exact H|].
  rewrite append_cons, includes_unfold, IH. apply orb_true_r.
Qed.

Lemma includes_append_l (a b s : string) :
  includes a s = true -> includes (a ++ b) s = true.
Proof.
  induction a as [|x a IH]; intros H.
  - destruct s as [|c s]; [|discriminate H].
    rewrite includes_unfold. reflexivity.
  - rewrite includes_unfold in H. rewrite append_cons, includes_unfold.
    apply orb_true_iff in H as [H|H].
    + rewrite <- append_cons, (startsWith_append _ b _ H). reflexivity.
    + rewrite (IH H). apply orb_true_r.
Qed.

Lemma promptHeader_includes (resumeText : string) :
  includes (promptHeader resumeText) resumeText = true.
Proof.
  unfold promptHeader, lines. cbn [String.concat].
  do 10 apply includes_append_r. apply includes_here.
Qed.

Lemma promptJobBlock_includes (jd : string) : includes (promptJobBlock jd) jd = true.
Proof.
  unfold promptJobBlock, lines. cbn [String.concat].
  do 2 apply includes_append_r. apply includes_here.
Qed.

(** X10: whatever the resume text and the job description, the prompt
    holds the resume text verbatim, holds the job description verbatim,
    and ends with the required output format. *)
Theorem prompt_holds_its_inputs (resumeText jd : string) :
  includes (buildAnalysisPrompt resumeText jd) resumeText = true /\
  includes (buildAnalysisPrompt resumeText jd) jd = true /\
  exists before, buildAnalysisPrompt resumeText jd = before ++ promptFormat.
Proof.
  unfold buildAnalysisPrompt.
  destruct (String.eqb_spec jd "") as [->|Hne]; cbn [negb].
  - split; [apply includes_append_l, promptHeader_includes|].
    split; [now rewrite includes_unfold|]. eexists. reflexivity.
  - split; [apply includes_append_l, includes_append_l, promptHeader_includes|].
    split; [|eexists; reflexivity].
    apply includes_append_l, includes_append_r, promptJobBlock_includes.
Qed.

Lemma matchFence_unfold (s : string) :
  matchFence s =
  match (if startsWith s fence then afterOpeningFence (drop 3 s) else None) with
  | Some captured => Some captured
  | None =>
      match s with
      | EmptyString => None
      | String _ s' => matchFence s'
      end
  end.
Proof. destruct s; reflexivity. Qed.

Lemma matchFence_without_fence (text : string) :
  includes text fence = false -> matchFence text = None.
Proof.
  induction text as [|c text IH]; intros H; rewrite includes_unfold in H;
    apply orb_false_iff in H as [Hs Hi]; rewrite matchFence_unfold, Hs.
  - reflexivity.
  - now apply IH.
Qed.

(** X8: a fallback reply in which no triple backtick occurs is handed
    to the parser exactly as received. *)
Theorem unfenced_reply_untouched (text : string) :
  includes text fence = false -> extractJson true text = text.
Proof.
  intros H. unfold extractJson. now rewrite (matchFence_without_fence text H).
Qed.

Lemma lookup_set_other (k k0 : string) (v : value) (fields : list (string * value)) :
  k <> k0 -> lookup_field k (set_field k0 v fields) = lookup_field k fields.
Proof.
  intros Hne. apply String.eqb_neq in Hne.
  induction fields as [|[k' v'] rest IH]; cbn [set_field lookup_field].
  - now rewrite Hne.
  - destruct (String.eqb_spec k0 k') as [->|Hk]; cbn [lookup_field].
    + now rewrite Hne.
    + now rewrite IH.
Qed.

(** X9: decoding a tip that is an object changes nothing but its
    category: every other property (the suggestion, the priority,
    whatever else was sent) is kept as received, and the category of the
    decoded tip is always one of the five valid ones. *)
Theorem tip_keeps_other_properties (fields : list (string * value)) :
  exists fields',
    normalizeTip (VObj fields) = Ok (VObj fields') /\
    (forall k, k <> "category" -> lookup_field k fields' = lookup_field k fields) /\
    validCategory (lookup_field "category" fields').
Proof.
  rewrite (normalizeTip_defined (VObj fields) eq_refl).
  eexists. split; [reflexivity|]. split.
  - intros k Hk. now apply lookup_set_other.
  - rewrite lookup_set_field. unfold validCategory.
    destruct (includes_value validCategories (get_opt (VObj fields) "category")) eqn:E.
    + now apply includes_value_iff.
    + cbn. auto.
Qed.

Lemma classifyError_shapes (m : string) :
  classifyError m = invalidKey \/
  classifyError m = quotaExceeded \/
  classifyError m = "AI analysis failed: " ++ m.
Proof.
  unfold classifyError.
  destruct (_ || _); [left; reflexivity|].
  destruct (_ || _); [right; left; reflexivity | right; right; reflexivity].
Qed.

Lemma take_length (n : nat) (s : string) :
  (String.length (take n s) <= n)%nat.
Proof.
  unfold take. revert s. induction n as [|n IH]; intros s.
  - destruct s; simpl; lia.
  - destruct s as [|c s]; [simpl; lia|]. cbn [String.substring String.length].
    specialize (IH s). lia.
Qed.

Lemma take_prefix (n : nat) (s : string) : startsWith s (take n s) = true.
Proof.
  unfold take. revert s. induction n as [|n IH]; intros s.
  - destruct s; reflexivity.
  - destruct s as [|c s]; [reflexivity|]. cbn [String.substring startsWith].
    now rewrite Ascii.eqb_refl, IH.
Qed.

Section WithCollaborators.
Context {B : Type}.
Variable invoke : Tier -> string -> B -> Res string * B.
Variable JSON_parse : string -> Res value.

Local Abbreviation analyze := (analyzeResume invoke JSON_parse).

(** X6: every error [analyzeResume] throws, from whichever tier or
    step, carries one of three messages: the invalid-key one, the
    quota one, or the original message behind [AI analysis failed: ]. *)
Theorem analysis_errors_are_classified
    (resumeText : string) (jd : option string) (w : World B) (e : string) :
  fst (analyze resumeText jd w) = Throw e ->
  e = invalidKey \/ e = quotaExceeded \/
  exists m, e = "AI analysis failed: " ++ m.
Proof.
  rewrite AnalyzeFacts.analyzeResume_outcome. unfold analysisOutcome.
  assert (C : forall (r : Res AnalysisResult), classified r = Throw e ->
              e = invalidKey \/ e = quotaExceeded \/
              exists m, e = "AI analysis failed: " ++ m).
  { intros [a|m] H; inversion H.
    destruct (classifyError_shapes m) as [E|[E|E]]; rewrite E; eauto. }
  destruct (invoke Primary testPrompt (backend w)) as [[t|m] b1]; [apply C|].
  destruct (isQuotaSignal m); [apply C|].
  intros H. inversion H.
  destruct (classifyError_shapes m) as [E|[E|E]]; rewrite E; eauto.
Qed.

(** X7: a call of [analyzeResume] leaves the upload directory, the
    record store and the handler's document alone; it sends one or two
    requests to the backend, never more, after those already sent; and
    it only adds to the console. *)
Theorem analysis_only_calls_the_backend
    (resumeText : string) (jd : option string) (w : World B) :
  let w' := snd (analyze resumeText jd w) in
  files w' = files w /\ db w' = db w /\ resume_obj w' = resume_obj w /\
  (exists sent, calls w' = (calls w ++ sent)%list /\ (1 <= length sent <= 2)%nat) /\
  (exists lines, console w' = (console w ++ lines)%list).
Proof.
  destruct (AnalyzeFacts.keeps_analyzeResume invoke JSON_parse resumeText jd w)
    as (F & D & R).
  cbv zeta. split; [exact F|]. split; [exact D|]. split; [exact R|].
  clear F D R.
  unfold analyzeResume, chooseModel, generateContent.
  cbv [try_catch bind ret throw lift console_out].
  destruct (invoke Primary testPrompt (backend w)) as [[t|m] b1];
    [|destruct (isQuotaSignal m)];
    cbn [fst snd calls console backend with_backend with_console];
    try (match goal with
         | |- context [invoke ?t ?p b1] =>
             destruct (invoke t p b1) as [[reply|err] b2]
         end;
         cbn [fst snd calls console backend with_backend with_console];
         try (match goal with
              | |- context [JSON_parse ?x] => destruct (JSON_parse x) as [v|pe]
              end;
              cbn [fst snd calls console backend with_backend with_console];
              try (destruct (normalize v);
                   cbn [fst snd calls console backend with_backend with_console])));
    rewrite <- ?app_assoc;
    (split;
     [eexists; split; [reflexivity | simpl; lia]
     | first [ exists []; now rewrite app_nil_r | eexists; reflexivity ]]).
Qed.

(** X11: when the primary reply is not JSON, the call fails with
    [AI analysis failed: AI returned invalid JSON response], whatever
    the parser's own message was, and the console gets an excerpt of the
    reply: its first 500 characters at most. *)
Theorem invalid_json_is_reported
    (resumeText : string) (jd : option string) (w : World B)
    (t reply pe : string) (b1 b2 : B) :
  invoke Primary testPrompt (backend w) = (Ok t, b1) ->
  invoke Primary (buildAnalysisPrompt resumeText (defaultJobDescription jd)) b1
    = (Ok reply, b2) ->
  JSON_parse reply = Throw pe ->
  fst (analyze resumeText jd w) =
    Throw "AI analysis failed: AI returned invalid JSON response" /\
  In (LError, [AStr "Failed to parse AI response:"; AStr (take 500 reply)])
    (console (snd (analyze resumeText jd w))) /\
  (String.length (take 500 reply) <= 500)%nat /\
  startsWith reply (take 500 reply) = true.
Proof.
  intros H1 H2 H3.
  unfold analyzeResume, chooseModel, generateContent.
  cbv [try_catch bind ret throw lift console_out].
  rewrite H1. cbn [backend with_backend]. rewrite H2.
  cbn [extractJson useGemma]. rewrite H3.
  cbn [fst snd console with_console with_backend].
  split; [reflexivity|]. split; [|split; [apply take_length | apply take_prefix]].
  rewrite !in_app_iff. left. left. left. left. right. left. reflexivity.
Qed.

End WithCollaborators.
Lemma unfenced_reply_untouched_witness :
  extractJson true "{}" = "{}".
Proof. apply (unfenced_reply_untouched "{}"). reflexivity. Defined.

Lemma analysis_errors_are_classified_witness :
  "AI analysis failed: AI returned invalid JSON response" = invalidKey \/
  "AI analysis failed: AI returned invalid JSON response" = quotaExceeded \/
  exists m, "AI analysis failed: AI returned invalid JSON response"
            = "AI analysis failed: " ++ m.
Proof.
  apply (analysis_errors_are_classified Examples.scripted Examples.parseKnown
           (UploadStated.cleaned Examples.resumeRaw) None Examples.proseWorld).
  reflexivity.
Defined.

Lemma invalid_json_is_reported_witness :
  fst (analyzeResume Examples.scripted Examples.parseKnown
         (UploadStated.cleaned Examples.resumeRaw) None Examples.proseWorld) =
    Throw "AI analysis failed: AI returned invalid JSON response" /\
  In (LError, [AStr "Failed to parse AI response:";
               AStr (take 500 "I cannot rate this resume.")])
    (console (snd (analyzeResume Examples.scripted Examples.parseKnown
                     (UploadStated.cleaned Examples.resumeRaw) None Examples.proseWorld))) /\
  (String.length (take 500 "I cannot rate this resume.") <= 500)%nat /\
  startsWith "I cannot rate this resume." (take 500 "I cannot rate this resume.") = true.
Proof.
  apply (invalid_json_is_reported Examples.scripted Examples.parseKnown
           (UploadStated.cleaned Examples.resumeRaw) None Examples.proseWorld
           ("{" ++ q "test" ++ ":true}") "I cannot rate this resume."
           "Unexpected token in JSON" [Ok "I cannot rate this resume."] []).
  - reflexivity.
  - reflexivity.
  - reflexivity.
Defined.

End AnalyzerMore.

(** ** More on [uploadResume] *)
Module UploadMore.
Import Analyzer Outcome UploadStated MoreStated AnalyzeFacts UploadFacts CleaningFacts.

(** Runs the analysis stage symbolically, as in [UploadFacts]. *)
Ltac analysis_stage r wa F D R :=
  match goal with
  | |- context [analyzeResume ?i ?p ?t ?j ?W] =>
      pose proof (keeps_analyzeResume i p t j W) as (F & D & R);
      pose proof (analyzeResume_outcome i p t j W) as HO;
      destruct (analyzeResume i p t j W) as [r wa];
      cbn [fst snd files db resume_obj backend with_console with_resume with_db]
        in HO, F, D, R
  end.

(** Runs what is left of a handler once its collaborators have answered:
    the unlink of the upload, in each state of the file system. *)
Ltac settle Hans :=
  repeat (cbn [fst snd files db resume_obj with_db with_resume with_console with_files];
          match goal with
          | R : resume_obj _ = _ |- _ => rewrite R
          | |- context [negb ?b] => destruct (negb b)
          | |- context [files ?w !! ?p] => destruct (files w !! p)
          | |- context [undeletable ?c] => destruct (undeletable c)
          end);
  cbn [fst snd files db resume_obj with_db with_resume with_console with_files];
  (eexists; split; [reflexivity|]); apply Hans; auto.

Section WithCollaborators.
Context {B : Type}.
Variable invoke : Tier -> string -> B -> Res string * B.
Variable JSON_parse : string -> Res value.
Variable validate : ResumeDoc -> Res unit.

Local Abbreviation upload := (uploadResume invoke JSON_parse validate).

Lemma parseOutcome_long (filePath : string) (fs : gmap string File) (text : string) :
  parseOutcome filePath fs = Ok text -> exists raw, text = cleaned raw.
Proof. intros H. destruct (parseOutcome_ok _ _ _ H) as (raw & E & _). eauto. Qed.

(** X12: [uploadResume] never throws: it always answers, with 201, 400
    or 500; with 400 exactly when no file came with the request, and
    with [success: true] exactly on 201. *)
Theorem upload_always_answers (req : Request) (w : World B) :
  exists response,
    fst (upload req w) = Ok response /\
    (statusCode response = 201 \/ statusCode response = 400 \/
     statusCode response = 500)%nat /\
    (statusCode response = 400%nat <-> file req = None) /\
    (success response = true <-> statusCode response = 201%nat).
Proof.
  assert (Hans : forall r : Response,
             (statusCode r = 201%nat /\ success r = true) \/
             (statusCode r = 500%nat /\ success r = false) ->
             file req <> None ->
             (statusCode r = 201 \/ statusCode r = 400 \/ statusCode r = 500)%nat /\
             (statusCode r = 400%nat <-> file req = None) /\
             (success r = true <-> statusCode r = 201%nat)).
  { intros r [[E1 E2]|[E1 E2]] Hn; rewrite E1, E2;
      (split; [auto|]); split; split; intros H;
      try discriminate H; try reflexivity; try lia; try contradiction. }
  unfold uploadResume, analysisStep.
  cbv [try_catch bind ret throw console_out Resume_create resume_update
       resume_save resume_read fs_unlink].
  destruct (file req) as [f|] eqn:Hf.
  2:{ eexists. split; [reflexivity|]. cbn. repeat split; auto; try discriminate. }
  assert (Hsome : Some f <> None) by discriminate.
  match goal with
  | |- context [FileParser.parseResume ?p ?W] =>
      destruct (FileParser.parseResume p W) as [[text|e] w1]
  end.
  - destruct (validate _) as [[]|e0]; [|settle Hans].
    analysis_stage r wa F D R. clear HO F D.
    destruct r as [a|e]; rewrite R; cbn [resume_obj with_resume].
    + destruct (validate _) as [[]|e1]; [settle Hans|].
      cbn [resume_obj with_resume with_db]. rewrite ?R. cbn [resume_obj with_resume].
      destruct (validate _) as [[]|e2]; settle Hans.
    + destruct (validate _) as [[]|e2]; settle Hans.
  - settle Hans.
Qed.

(** The run of [uploadResume] when every stage goes through. *)
Lemma success_run
    (w : World B) (req : Request) (f : Upload) (content : File) (raw : string)
    (a : AnalysisResult) :
  let created := createdDoc req f (cleaned raw) in
  let done := setStatus completed (setAnalysis (Some a) created) in
  let w' := snd (upload req w) in
  file req = Some f ->
  files w !! path f = Some content ->
  extractsTo (path f) content raw ->
  (50 <= String.length (cleaned raw))%nat ->
  validate created = Ok tt ->
  analysisOutcome invoke JSON_parse (cleaned raw) (body_jobDescription req) (backend w)
    = Ok a ->
  validate done = Ok tt ->
  fst (upload req w) =
    Ok {| statusCode := 201; success := true;
          message := "Resume analyzed successfully";
          error := None; data := Some done |} /\
  db w' = <[fresh (dom (db w)) := done]> (db w) /\
  db w !! fresh (dom (db w)) = None /\
  files w' = afterUnlink (path f) (files w) /\
  (undeletable content = true ->
   exists e, In (LWarn, [AStr "Could not delete temporary file:"; AStr e]) (console w')).
Proof.
  intros created done w' Hfile Hcontent Hx Hlong Hv0 Hout Hv1.
  assert (Hfresh : db w !! fresh (dom (db w)) = None).
  { apply not_elem_of_dom. apply is_fresh. }
  unfold w', uploadResume, analysisStep.
  cbv [try_catch bind ret throw console_out Resume_create resume_update
       resume_save resume_read fs_unlink].
  rewrite Hfile.
  erewrite parseResume_extracted; [|exact Hcontent|exact Hx].
  rewrite (long_is_accepted raw Hlong).
  fold (createdDoc req f (cleaned raw)). fold created. rewrite Hv0.
  analysis_stage r wa F D R.
  rewrite Hout in HO. subst r. rewrite R. cbn [resume_obj with_resume].
  fold done. rewrite Hv1.
  cbn [fst snd files db resume_obj with_db with_resume with_console with_files].
  unfold afterUnlink. rewrite F, Hcontent.
  destruct (undeletable content);
    cbn [fst snd files db console resume_obj with_db with_resume with_console with_files];
    rewrite ?F, D, insert_insert_eq; repeat split; auto; try discriminate.
  intros _. eexists. rewrite in_app_iff. right. left. reflexivity.
Qed.

(** X13: when extraction, analysis and both writes go through, the
    answer is 201 with the completed document; the record store gains
    exactly that document under a fresh id, all earlier records
    unchanged; the upload is unlinked, or, when the file system refuses,
    kept with a warning on the console and the answer still 201. *)
Theorem successful_upload
    (w : World B) (req : Request) (f : Upload) (content : File) (raw : string)
    (a : AnalysisResult) :
  let created := createdDoc req f (cleaned raw) in
  let done := setStatus completed (setAnalysis (Some a) created) in
  let w' := snd (upload req w) in
  file req = Some f ->
  files w !! path f = Some content ->
  extractsTo (path f) content raw ->
  (50 <= String.length (cleaned raw))%nat ->
  validate created = Ok tt ->
  analysisOutcome invoke JSON_parse (cleaned raw) (body_jobDescription req) (backend w)
    = Ok a ->
  validate done = Ok tt ->
  fst (upload req w) =
    Ok {| statusCode := 201; success := true;
          message := "Resume analyzed successfully";
          error := None; data := Some done |} /\
  db w' = <[fresh (dom (db w)) := done]> (db w) /\
  db w !! fresh (dom (db w)) = None /\
  files w' = afterUnlink (path f) (files w) /\
  (undeletable content = true ->
   exists e, In (LWarn, [AStr "Could not delete temporary file:"; AStr e]) (console w')).
Proof. apply success_run. Qed.



(** X15: when extraction fails, for whatever reason, the answer is 500
    with the extraction error; no record is created, no request goes to
    the backend, and the upload is unlinked if the file system allows. *)
Theorem failed_extraction_cleans_up
    (w : World B) (req : Request) (f : Upload) (e : string) :
  let w' := snd (upload req w) in
  file req = Some f ->
  path f <> "" ->
  fst (FileParser.parseResume (path f) w) = Throw e ->
  fst (upload req w) = Ok (errorResponse e) /\
  db w' = db w /\
  calls w' = calls w /\
  files w' = afterUnlink (path f) (files w).
Proof.
  intros w' Hfile Hpath Hparse. rewrite parseResume_run in Hparse. cbn [fst] in Hparse.
  unfold w', uploadResume. cbv [try_catch bind ret throw console_out fs_unlink].
  rewrite Hfile, parseResume_run. cbn [files with_console]. rewrite Hparse.
  apply String.eqb_neq in Hpath. rewrite Hpath. cbn [negb].
  unfold afterUnlink. cbn [files with_console].
  destruct (files w !! path f) as [c|]; [destruct (undeletable c)|];
    repeat split; reflexivity.
Qed.

(** X16: when the record store rejects the new record, the answer is
    500 with the store's error; nothing is stored, no request goes to
    the backend, and the upload is unlinked if the file system allows. *)
Theorem rejected_record_cleans_up
    (w : World B) (req : Request) (f : Upload) (text e : string) :
  let w' := snd (upload req w) in
  file req = Some f ->
  path f <> "" ->
  fst (FileParser.parseResume (path f) w) = Ok text ->
  validate (createdDoc req f text) = Throw e ->
  fst (upload req w) = Ok (errorResponse e) /\
  db w' = db w /\
  calls w' = calls w /\
  files w' = afterUnlink (path f) (files w).
Proof.
  intros w' Hfile Hpath Hparse Hv. rewrite parseResume_run in Hparse. cbn [fst] in Hparse.
  unfold w', uploadResume.
  cbv [try_catch bind ret throw console_out fs_unlink Resume_create].
  rewrite Hfile, parseResume_run. cbn [files with_console]. rewrite Hparse.
  fold (createdDoc req f text). rewrite Hv.
  apply String.eqb_neq in Hpath. rewrite Hpath. cbn [negb].
  unfold afterUnlink. cbn [files with_console].
  destruct (files w !! path f) as [c|]; [destruct (undeletable c)|];
    repeat split; reflexivity.
Qed.

End WithCollaborators.
Lemma successful_upload_witness :
  fst (uploadResume Examples.scripted Examples.parseKnown Examples.scoreRangeValidator
         Examples.request Samples.ratedWorld) =
    Ok {| statusCode := 201; success := true;
          message := "Resume analyzed successfully";
          error := None;
          data := Some (setStatus completed
                          (setAnalysis (Some Examples.emptyResult)
                             (createdDoc Examples.request Examples.uploaded
                                (cleaned Examples.resumeRaw)))) |} /\
  files (snd (uploadResume Examples.scripted Examples.parseKnown
                Examples.scoreRangeValidator Examples.request Samples.ratedWorld))
    !! Examples.uploadPath = None.
Proof.
  destruct (successful_upload Examples.scripted Examples.parseKnown
              Examples.scoreRangeValidator Samples.ratedWorld Examples.request
              Examples.uploaded Examples.resumePdf Examples.resumeRaw
              Examples.emptyResult)
    as (Hanswer & _ & _ & Hfiles & _).
  - reflexivity.
  - reflexivity.
  - left. split; reflexivity.
  - vm_compute. lia.
  - reflexivity.
  - reflexivity.
  - reflexivity.
  - split; [exact Hanswer|]. rewrite Hfiles. reflexivity.
Defined.


Lemma failed_extraction_cleans_up_witness :
  fst (uploadResume Examples.scripted Examples.parseKnown Examples.scoreRangeValidator
         Examples.request Examples.scannedWorld)
    = Ok (errorResponse FileParser.textTooShort) /\
  db (snd (uploadResume Examples.scripted Examples.parseKnown
             Examples.scoreRangeValidator Examples.request Examples.scannedWorld))
    = db Examples.scannedWorld /\
  calls (snd (uploadResume Examples.scripted Examples.parseKnown
                Examples.scoreRangeValidator Examples.request Examples.scannedWorld))
    = calls Examples.scannedWorld /\
  files (snd (uploadResume Examples.scripted Examples.parseKnown
                Examples.scoreRangeValidator Examples.request Examples.scannedWorld))
    = afterUnlink (path Examples.uploaded) (files Examples.scannedWorld).
Proof.
  apply (failed_extraction_cleans_up Examples.scripted Examples.parseKnown
           Examples.scoreRangeValidator Examples.scannedWorld Examples.request
           Examples.uploaded FileParser.textTooShort).
  - reflexivity.
  - discriminate.
  - reflexivity.
Defined.

Lemma rejected_record_cleans_up_witness :
  fst (uploadResume Examples.scripted Examples.parseKnown Samples.requiredStrings
         Samples.unnamedRequest Samples.ratedWorld)
    = Ok (errorResponse
            "Resume validation failed: originalFileName: Path `originalFileName` is required.") /\
  db (snd (uploadResume Examples.scripted Examples.parseKnown Samples.requiredStrings
             Samples.unnamedRequest Samples.ratedWorld))
    = db Samples.ratedWorld /\
  calls (snd (uploadResume Examples.scripted Examples.parseKnown Samples.requiredStrings
                Samples.unnamedRequest Samples.ratedWorld))
    = calls Samples.ratedWorld /\
  files (snd (uploadResume Examples.scripted Examples.parseKnown Samples.requiredStrings
                Samples.unnamedRequest Samples.ratedWorld))
    = afterUnlink (path Samples.unnamed) (files Samples.ratedWorld).
Proof.
  apply (rejected_record_cleans_up Examples.scripted Examples.parseKnown
           Samples.requiredStrings Samples.ratedWorld Samples.unnamedRequest
           Samples.unnamed (cleaned Examples.resumeRaw)).
  - reflexivity.
  - discriminate.
  - vm_compute. reflexivity.
  - reflexivity.
Defined.

End UploadMore.

(** ** [getResumeById] and [deleteResume] *)
Module ControllerFacts.
Import Analyzer Outcome UploadStated MoreStated.

Section WithStore.
Context {B : Type}.
Variable castObjectId : string -> Res nat.

Lemma owner_check (a b : nat) : negb (a =? b)%nat = false <-> a = b.
Proof. rewrite negb_false_iff. apply Nat.eqb_eq. Qed.

(** X17: [getResumeById] changes nothing and always answers; a
    document is only ever disclosed with a 200, it is then the stored
    record the id addresses, and the requester owns it. *)
Theorem lookup_discloses_to_owner_only (req : IdRequest) (w : World B) :
  exists reply,
    getResumeById castObjectId req w = (Ok reply, w) /\
    (replySuccess reply = true <-> replyCode reply = 200%nat) /\
    (replyCode reply = 200%nat <-> exists doc, replyData reply = Some doc) /\
    (forall doc, replyData reply = Some doc ->
       user doc = requester req /\
       exists i, castObjectId (params_id req) = Ok i /\ db w !! i = Some doc).
Proof.
  assert (Hno : forall code : nat, code <> 200%nat ->
            (false = true <-> code = 200%nat) /\
            (code = 200%nat <-> exists doc : ResumeDoc, None = Some doc) /\
            (forall doc : ResumeDoc, None = Some doc ->
               user doc = requester req /\
               exists i, castObjectId (params_id req) = Ok i /\ db w !! i = Some doc)).
  { intros code Hcode. split; [split; [discriminate | contradiction]|].
    split; [split; [contradiction | intros [d Hd]; discriminate Hd]|].
    intros d Hd. discriminate Hd. }
  unfold getResumeById, Resume_findById. cbv [try_catch bind ret].
  destruct (castObjectId (params_id req)) as [i|e] eqn:Hc.
  - destruct (db w !! i) as [doc|] eqn:Hd; cbn [option_map].
    + destruct (negb (user doc =? requester req)%nat) eqn:Ho.
      * eexists. split; [reflexivity|]. apply Hno. cbn. lia.
      * apply owner_check in Ho. eexists. split; [reflexivity|]. cbn.
        split; [tauto|]. split; [split; eauto|].
        intros d E. injection E as <-. eauto.
    + eexists. split; [reflexivity|]. apply Hno. cbn. lia.
  - eexists. split; [reflexivity|]. apply Hno. cbn. lia.
Qed.

(** X18: [deleteResume] always answers. With a 200, the addressed
    record existed, the requester owned it, and exactly that record is
    gone from the store; with any other answer nothing at all has
    changed. The upload directory is never touched: a file the upload
    left behind stays. *)
Theorem delete_removes_owned_record_only (req : IdRequest) (w : World B) :
  exists reply w',
    deleteResume castObjectId req w = (Ok reply, w') /\
    files w' = files w /\
    (replySuccess reply = true <-> replyCode reply = 200%nat) /\
    (replyCode reply = 200%nat ->
       exists i doc, castObjectId (params_id req) = Ok i /\
                     db w !! i = Some doc /\ user doc = requester req /\
                     db w' = delete i (db w) /\
                     db w' !! i = None /\
                     forall j, j <> i -> db w' !! j = db w !! j) /\
    (replyCode reply <> 200%nat -> w' = w).
Proof.
  assert (Hno : forall code : nat, code <> 200%nat ->
            files w = files w /\
            (false = true <-> code = 200%nat) /\
            (code = 200%nat ->
               exists i doc, castObjectId (params_id req) = Ok i /\
                             db w !! i = Some doc /\ user doc = requester req /\
                             db w = delete i (db w) /\
                             db w !! i = None /\
                             forall j, j <> i -> db w !! j = db w !! j) /\
            (code <> 200%nat -> w = w)).
  { intros code Hcode. split; [reflexivity|].
    split; [split; [discriminate | contradiction]|].
    split; [contradiction | reflexivity]. }
  unfold deleteResume, Resume_findById, resume_deleteOne. cbv [try_catch bind ret].
  destruct (castObjectId (params_id req)) as [i|e] eqn:Hc.
  - destruct (db w !! i) as [doc|] eqn:Hd; cbn [option_map].
    + destruct (negb (user doc =? requester req)%nat) eqn:Ho.
      * do 2 eexists. split; [reflexivity|]. apply Hno. cbn. lia.
      * apply owner_check in Ho. do 2 eexists. split; [reflexivity|].
        cbn [files db with_db replySuccess replyCode].
        split; [reflexivity|]. split; [tauto|]. split; [|contradiction].
        intros _. exists i, doc. repeat split; auto.
        -- apply lookup_delete_eq.
        -- intros j Hj. now apply lookup_delete_ne.
    + do 2 eexists. split; [reflexivity|]. apply Hno. cbn. lia.
  - do 2 eexists. split; [reflexivity|]. apply Hno. cbn. lia.
Qed.

End WithStore.

Section RoundTrip.
Context {B : Type}.
Variable invoke : Tier -> string -> B -> Res string * B.
Variable JSON_parse : string -> Res value.
Variable validate : ResumeDoc -> Res unit.
Variable castObjectId : string -> Res nat.

Local Abbreviation upload := (uploadResume invoke JSON_parse validate).

(** X19: upload, look up, delete. After a successful upload, the id
    of the new record gets its owner a 200 with the completed document
    and anyone else a 403; the owner's [deleteResume] then puts the
    record store back to what it was before the upload, while anyone
    else's leaves the record in place. *)
Theorem upload_lookup_delete
    (w : World B) (req : Request) (f : Upload) (content : File) (raw : string)
    (a : AnalysisResult) (id : string) (other : nat) :
  let created := createdDoc req f (cleaned raw) in
  let done := setStatus completed (setAnalysis (Some a) created) in
  let w1 := snd (upload req w) in
  let mine := {| params_id := id; requester := user_id req |} in
  let theirs := {| params_id := id; requester := other |} in
  file req = Some f ->
  files w !! path f = Some content ->
  extractsTo (path f) content raw ->
  (50 <= String.length (cleaned raw))%nat ->
  validate created = Ok tt ->
  analysisOutcome invoke JSON_parse (cleaned raw) (body_jobDescription req) (backend w)
    = Ok a ->
  validate done = Ok tt ->
  castObjectId id = Ok (fresh (dom (db w))) ->
  other <> user_id req ->
  getResumeById castObjectId mine w1 =
    (Ok {| replyCode := 200; replySuccess := true; replyMessage := None;
           replyError := None; replyData := Some done |}, w1) /\
  getResumeById castObjectId theirs w1 =
    (Ok (refused "Not authorized to access this resume"), w1) /\
  deleteResume castObjectId theirs w1 =
    (Ok (refused "Not authorized to delete this resume"), w1) /\
  fst (deleteResume castObjectId mine w1) =
    Ok {| replyCode := 200; replySuccess := true;
          replyMessage := Some "Resume deleted successfully";
          replyError := None; replyData := None |} /\
  db (snd (deleteResume castObjectId mine w1)) = db w.
Proof.
  intros created done w1 mine theirs Hfile Hcontent Hx Hlong Hv0 Hout Hv1 Hid Hother.
  destruct (UploadMore.success_run invoke JSON_parse validate w req f content raw a
              Hfile Hcontent Hx Hlong Hv0 Hout Hv1) as (_ & Hdb & Hnew & _).
  fold created done w1 in Hdb.
  assert (Hget : db w1 !! fresh (dom (db w)) = Some done).
  { rewrite Hdb. apply lookup_insert_eq. }
  assert (Hu : user done = user_id req) by reflexivity.
  unfold getResumeById, deleteResume, Resume_findById, resume_deleteOne.
  cbv [try_catch bind ret]. cbn [params_id requester mine theirs].
  rewrite Hid, Hget. cbn [option_map]. rewrite Hu, Nat.eqb_refl.
  apply Nat.eqb_neq in Hother. rewrite Nat.eqb_sym in Hother. rewrite Hother.
  cbn [negb fst snd db with_db]. repeat split; try reflexivity.
  rewrite Hdb, delete_insert_eq. now apply delete_id.
Qed.

End RoundTrip.
Lemma upload_lookup_delete_witness :
  fst (getResumeById Samples.castFirstId
         {| params_id := Samples.firstId; requester := 7 |}
         (snd (uploadResume Examples.scripted Examples.parseKnown
                 Examples.scoreRangeValidator Examples.request Samples.ratedWorld))) =
    Ok {| replyCode := 200; replySuccess := true; replyMessage := None;
          replyError := None;
          replyData := Some (setStatus completed
                               (setAnalysis (Some Examples.emptyResult)
                                  (createdDoc Examples.request Examples.uploaded
                                     (cleaned Examples.resumeRaw)))) |} /\
  fst (getResumeById Samples.castFirstId
         {| params_id := Samples.firstId; requester := 8 |}
         (snd (uploadResume Examples.scripted Examples.parseKnown
                 Examples.scoreRangeValidator Examples.request Samples.ratedWorld))) =
    Ok (refused "Not authorized to access this resume") /\
  db (snd (deleteResume Samples.castFirstId
             {| params_id := Samples.firstId; requester := 7 |}
             (snd (uploadResume Examples.scripted Examples.parseKnown
                     Examples.scoreRangeValidator Examples.request Samples.ratedWorld))))
    = db Samples.ratedWorld.
Proof.
  destruct (upload_lookup_delete Examples.scripted Examples.parseKnown
              Examples.scoreRangeValidator Samples.castFirstId Samples.ratedWorld
              Examples.request Examples.uploaded Examples.resumePdf Examples.resumeRaw
              Examples.emptyResult Samples.firstId 8)
    as (Hmine & Htheirs & _ & _ & Hdb).
  - reflexivity.
  - reflexivity.
  - left. split; reflexivity.
  - vm_compute. lia.
  - reflexivity.
  - reflexivity.
  - reflexivity.
  - reflexivity.
  - cbn. lia.
  - split; [exact (f_equal fst Hmine)|].
    split; [exact (f_equal fst Htheirs) | exact Hdb].
Defined.

End ControllerFacts.

(** ** More on the job service *)
Module JobMore.
Import JobService JobStated JobFacts MoreStated.
Local Open Scope Z_scope.

(** [findMatchedSkills] keeps the matching skills, in their order. *)
Lemma matched_fold (f : string -> bool) (l acc : list string) :
  fold_left (fun matched skill => if f skill then (matched ++ [skill])%list else matched)
    l acc = (acc ++ List.filter f l)%list.
Proof.
  revert acc. induction l as [|x l IH]; intros acc; cbn [fold_left List.filter].
  - now rewrite app_nil_r.
  - rewrite IH. destruct (f x); [|reflexivity].
    now rewrite <- app_assoc.
Qed.

Lemma findMatchedSkills_filter (j : Job) (skills : UserSkills) :
  findMatchedSkills j skills = List.filter (skillMatches j) (allSkills skills).
Proof. unfold findMatchedSkills. now rewrite matched_fold. Qed.

(** X20: the two passes over the skills agree: [matchedSkills] holds
    the skills the listing names, in the order of [allSkills], and
    [matchScore] is the score of their number. *)
Theorem score_counts_matched_skills (j : Job) (skills : UserSkills) :
  let scoredJob := scoreJob skills j in
  let total := length (allSkills skills) in
  job scoredJob = j /\
  matchedSkills scoredJob = List.filter (skillMatches j) (allSkills skills) /\
  (forall skill, In skill (matchedSkills scoredJob) <->
                 In skill (allSkills skills) /\ skillMatches j skill = true) /\
  matchScore scoredJob =
    (if (total =? 0)%nat then RInt 50
     else clampRound (product (length (matchedSkills scoredJob)) total)).
Proof.
  cbn [scoreJob job matchedSkills matchScore].
  rewrite findMatchedSkills_filter. split; [reflexivity|]. split; [reflexivity|].
  split; [intros skill; apply filter_In|].
  apply calculateMatchScore_unfold.
Qed.

Lemma existsb_eqb_In (skill : string) (l : list string) :
  existsb (String.eqb skill) l = true <-> In skill l.
Proof.
  rewrite existsb_exists. split.
  - intros (x & Hx & E). apply String.eqb_eq in E. now subst.
  - intros H. exists skill. split; [exact H | apply String.eqb_refl].
Qed.

Lemma listed_as_matched (j : Job) (l : list string) (skill : string) :
  In skill l ->
  existsb (String.eqb skill) (List.filter (skillMatches j) l) = skillMatches j skill.
Proof.
  intros Hin. destruct (skillMatches j skill) eqn:E.
  - apply existsb_eqb_In, filter_In. now split.
  - destruct (existsb _ _) eqn:X; [|reflexivity].
    apply existsb_eqb_In, filter_In in X. destruct X as [_ X]. congruence.
Qed.

(** X21: for the skills of a resume, [missingSkills] holds the hard
    skills the listing does not name, in their order; nothing but a
    hard skill is ever reported missing, and every hard skill is either
    matched or missing, never both. *)
Theorem missing_skills_are_unmatched_hard_skills (resume : Resume) (j : Job) :
  let skills := extractSkills resume in
  let scoredJob := scoreJob skills j in
  missingSkills scoredJob =
    List.filter (fun skill => negb (skillMatches j skill)) (hardSkills skills) /\
  (forall skill, In skill (missingSkills scoredJob) -> In skill (hardSkills skills)) /\
  (forall skill, In skill (hardSkills skills) ->
     (In skill (matchedSkills scoredJob) /\ ~ In skill (missingSkills scoredJob)) \/
     (In skill (missingSkills scoredJob) /\ ~ In skill (matchedSkills scoredJob))).
Proof.
  intros skills scoredJob.
  assert (Hm : missingSkills scoredJob =
               List.filter (fun skill => negb (skillMatches j skill)) (hardSkills skills)).
  { cbn [scoredJob scoreJob missingSkills]. rewrite findMatchedSkills_filter.
    apply filter_ext_in. intros skill Hin.
    rewrite listed_as_matched; [reflexivity|].
    cbn [skills extractSkills allSkills hardSkills] in *.
    apply in_or_app. now left. }
  split; [exact Hm|]. rewrite Hm.
  cbn [scoredJob scoreJob matchedSkills]. rewrite findMatchedSkills_filter.
  split.
  - intros skill H. now apply filter_In in H.
  - intros skill Hin. rewrite !filter_In.
    assert (Hall : In skill (allSkills skills)).
    { cbn [skills extractSkills allSkills hardSkills] in *. apply in_or_app. now left. }
    destruct (skillMatches j skill) eqn:E; [left | right]; cbn [negb];
      (split; [now split | intros [_ H]; discriminate H]).
Qed.

(** A ranking already in descending order is left as it is. *)
Lemma sort_of_descending (l : list ScoredJob) :
  Forall hasIntScore l -> StronglySorted descending l ->
  Array_sort byScoreDescending l = l.
Proof.
  intros Hl Hs. induction Hs as [|x l Hs IH Hx]; [reflexivity|].
  inversion Hl as [|? ? Hix Hil]; subst.
  cbn [Array_sort fold_right].
  change (fold_right (insert_sorted byScoreDescending) [] l)
    with (Array_sort byScoreDescending l).
  rewrite (IH Hil). destruct l as [|y rest]; [reflexivity|].
  cbn [insert_sorted]. inversion Hil as [|? ? Hiy _]; subst.
  rewrite (comparator_on_integers x y Hix Hiy).
  inversion Hx as [|? ? Hxy _]; subst. unfold descending in Hxy.
  destruct (Z.ltb_spec (scoreOf x) (scoreOf y)); [lia | reflexivity].
Qed.

Lemma neutral_sorted (jobs : list Job) :
  Forall hasIntScore (map neutral jobs) /\ StronglySorted descending (map neutral jobs).
Proof.
  induction jobs as [|j jobs [IHi IHs]]; cbn [map]; [split; constructor|].
  split; [constructor; [now exists 50 | exact IHi]|].
  constructor; [exact IHs|].
  clear. induction jobs as [|k jobs IH]; cbn [map]; constructor; [|exact IH].
  unfold descending, scoreOf. cbn. lia.
Qed.

(** X22: for a resume without hard and soft skills,
    [matchJobsWithResume] searches for [software developer], rates
    every listing 50 with no matched and no missing skills, and returns
    the listings in the order the source gave them. *)
Theorem no_skills_neutral_ranking
    (fetchJobsFromAPI : string -> string -> nat -> list Job)
    (resume : Resume) (options : Options) :
  allSkills (extractSkills resume) = [] ->
  buildSearchQuery (extractSkills resume) = "software developer"%string /\
  matchJobsWithResume fetchJobsFromAPI resume options =
    map neutral (upstream fetchJobsFromAPI resume options).
Proof.
  intros Hnone.
  assert (Hhard : hardSkills (extractSkills resume) = []).
  { cbn [extractSkills allSkills hardSkills] in *.
    now apply app_eq_nil in Hnone. }
  split.
  - unfold buildSearchQuery. now rewrite Hhard.
  - unfold matchJobsWithResume, rankJobs.
    fold (upstream fetchJobsFromAPI resume options).
    assert (E : forall j, scoreJob (extractSkills resume) j = neutral j).
    { intros j. unfold scoreJob, neutral, findMatchedSkills, calculateMatchScore.
      now rewrite Hnone, Hhard. }
    rewrite (map_ext _ _ E).
    destruct (neutral_sorted (upstream fetchJobsFromAPI resume options)) as [Hi Hs].
    now apply sort_of_descending.
Qed.

Lemma div_eucl_exact (m : positive) :
  Z.div_eucl (Z.shiftl (Zpos m) 53) (Zpos m) = (2 ^ 53, 0).
Proof.
  rewrite Z.shiftl_mul_pow2 by lia.
  pose proof (Z.div_mul (2 ^ 53) (Zpos m) ltac:(lia)) as Hq.
  pose proof (Z.mod_mul (2 ^ 53) (Zpos m) ltac:(lia)) as Hr.
  rewrite (Z.mul_comm (Zpos m)).
  unfold Z.div, Z.modulo in Hq, Hr.
  destruct (Z.div_eucl (2 ^ 53 * Zpos m) (Zpos m)) as [q r].
  cbn [fst snd] in *. now subst.
Qed.

(** A finite double divided by itself is one. *)
Lemma div_self (m : positive) (e : Z) :
  div (S754_finite false m e) (S754_finite false m e) =
  S754_finite false 4503599627370496 (-52).
Proof.
  unfold div, SFdiv, SFdiv_core_binary. cbv zeta.
  replace (Zdigits2 (Zpos m) + e - (Zdigits2 (Zpos m) + e)) with 0 by lia.
  replace (e - e) with 0 by lia.
  change (Z.min (fexp prec emax 0) 0) with (-53).
  change (0 - -53) with 53.
  cbv iota. rewrite div_eucl_exact.
  assert (L : new_location (Zpos m) 0 = loc_Exact).
  { unfold new_location, new_location_even, new_location_odd.
    destruct (Z.even (Zpos m)); reflexivity. }
  rewrite L. reflexivity.
Qed.

(** X23: the ends of the scale: with at least one skill, a listing
    that names none of them scores 0, and one that names every one of
    them scores 100, whatever their number. *)
Theorem none_scores_0_all_scores_100 (j : Job) (skills : UserSkills) :
  allSkills skills <> [] ->
  withinArrayLimit (allSkills skills) ->
  (matchedCount j skills = 0%nat -> calculateMatchScore j skills = RInt 0) /\
  (matchedCount j skills = length (allSkills skills) ->
   calculateMatchScore j skills = RInt 100).
Proof.
  intros Hsome Hlim. apply within_limit_exact in Hlim.
  rewrite calculateMatchScore_unfold.
  destruct (Nat.eqb_spec (length (allSkills skills)) 0) as [E|NE].
  { apply length_zero_iff_nil in E. contradiction. }
  destruct (of_nat_finite (length (allSkills skills)) ltac:(lia) Hlim) as (m & e & Hf).
  split; intros Hc; rewrite Hc; unfold product; rewrite ?Hf.
  - reflexivity.
  - rewrite div_self. reflexivity.
Qed.

(** X24: ranking is idempotent: sorting a ranked list again, with the
    same comparator, changes nothing. *)
Theorem ranking_twice_changes_nothing (jobs : list Job) (skills : UserSkills) :
  withinArrayLimit (allSkills skills) ->
  Array_sort byScoreDescending (rankJobs jobs skills) = rankJobs jobs skills.
Proof.
  intros Hlim. pose proof (ranked_scores_are_integers jobs skills Hlim) as Hi.
  destruct (sort_spec _ Hi) as (P & S & _).
  apply sort_of_descending; [|exact S].
  eapply Permutation_Forall; [symmetry; exact P | exact Hi].
Qed.

Lemma no_skills_neutral_ranking_witness :
  JobService.buildSearchQuery (JobService.extractSkills Samples.noKeywords)
    = "software developer" /\
  JobService.matchJobsWithResume Examples.fixedSource Samples.noKeywords Examples.noOptions
    = map neutral Examples.fourListings.
Proof.
  apply (no_skills_neutral_ranking Examples.fixedSource Samples.noKeywords
           Examples.noOptions).
  reflexivity.
Defined.

Lemma none_scores_0_all_scores_100_witness :
  JobService.calculateMatchScore Examples.reactListing Samples.cobolOnly
    = JobService.RInt 0 /\
  JobService.calculateMatchScore Examples.reactListing Samples.reactOnly
    = JobService.RInt 100.
Proof.
  split.
  - apply (none_scores_0_all_scores_100 Examples.reactListing Samples.cobolOnly).
    + discriminate.
    + reflexivity.
    + reflexivity.
  - apply (none_scores_0_all_scores_100 Examples.reactListing Samples.reactOnly).
    + discriminate.
    + reflexivity.
    + reflexivity.
Defined.

Lemma ranking_twice_changes_nothing_witness :
  JobService.Array_sort JobService.byScoreDescending
    (JobService.rankJobs Examples.fourListings
       (JobService.extractSkills Examples.tenSkills))
  = JobService.rankJobs Examples.fourListings
      (JobService.extractSkills Examples.tenSkills).
Proof.
  apply (ranking_twice_changes_nothing Examples.fourListings
           (JobService.extractSkills Examples.tenSkills)).
  reflexivity.
Defined.

End JobMore.
